(** * The GitHub integration page (src/app/(protected)/integrations/github/page.tsx)

    A shallow embedding of the React component [GitHubIntegrationPage]:
    its [useState] cells, the [useEffect] that fetches the data, the two
    action handlers and the render selector, followed by the properties of
    the page that the specification states.

    How the component is modelled.
    - Each handler is cut at its [await]: the part that runs at once
      ([handleSync_begin], ...) and the part that runs when the awaited
      call settles ([handleSync_resume], ...).  Both are lists of the
      commands the code issues, in program order: calls of the state
      setters, of [toast], of [fetch], and the assignment to
      [window.location.href].
    - What an awaited call can give back is data: [fetch] rejects or gives
      a response, the response is ok or not, and [response.json()] rejects
      or gives a body.
    - The world around the component (identity provider, pending calls,
      toasts shown) is a record, and one event of the page's life is one
      step on it. *)

From Stdlib Require Import String Ascii List Bool Arith NArith ZArith Lia.
From Stdlib Require Import DecimalString DecimalN.
Import ListNotations.
Open Scope string_scope.

(** ** The JavaScript operations the page relies on *)

Module Js.

(** [s.startsWith(pat)] on the code units of [s]. *)
Fixpoint startsWith (s pat : string) {struct pat} : bool :=
  match pat with
  | EmptyString => true
  | String p pat' =>
      match s with
      | EmptyString => false
      | String c s' => Ascii.eqb c p && startsWith s' pat'
      end
  end.

Fixpoint drop (n : nat) (s : string) : string :=
  match n with
  | O => s
  | S n' => match s with EmptyString => EmptyString | String _ s' => drop n' s' end
  end.

Fixpoint take (n : nat) (s : string) : string :=
  match n with
  | O => EmptyString
  | S n' => match s with
            | EmptyString => EmptyString
            | String c s' => String c (take n' s')
            end
  end.

(** [s.indexOf(pat)]: the least position at which [pat] occurs, [None]
    for -1. *)
Fixpoint indexOf (s pat : string) : option nat :=
  if startsWith s pat then Some O
  else match s with
       | EmptyString => None
       | String _ s' => option_map S (indexOf s' pat)
       end.

(** [s.replace(pat, rep)] for a string pattern and a replacement with no
    dollar sign in it: the first occurrence of [pat] is replaced, and a
    string with no occurrence is returned as it is. *)
Definition replace (s pat rep : string) : string :=
  match indexOf s pat with
  | None => s
  | Some pos => take pos s ++ rep ++ drop (pos + String.length pat) s
  end.

(** [pat] occurs in [s] at position [i]. *)
Definition occurs_at (i : nat) (s pat : string) : Prop :=
  startsWith (drop i s) pat = true.

(** [s.includes(sub)], as a proposition. *)
Definition includes (s sub : string) : Prop :=
  exists pre post, s = pre ++ sub ++ post.

(** Truthiness of a string: every string but the empty one. *)
Definition truthy_string (s : string) : bool :=
  match s with EmptyString => false | String _ _ => true end.

(** Truthiness of a value that is [undefined] or a boolean. *)
Definition truthy (b : option bool) : bool :=
  match b with Some true => true | _ => false end.

(** [x ?? y] on a value that is null or a string. *)
Definition nullish (A : Type) (x : option A) (y : A) : A :=
  match x with Some v => v | None => y end.
Arguments nullish {A} x y.

(** The decimal digits of a natural number, most significant first. *)
Definition digits (n : N) : string :=
  NilEmpty.string_of_uint (N.to_uint n).

(** A number, as far as its text goes.  A safe integer (at most 2^53 - 1
    in absolute value, [Number.isSafeInteger]) is a double that
    JavaScript prints as its exact decimal digits.  Any other double (a
    fraction, an integer beyond the safe range, which is printed with
    the shortest digits that give the double back, an infinity, NaN) is
    held by the text that [Number::toString] gives for it. *)
Inductive Number : Type :=
| SafeInteger (z : Z) (safe : (Z.abs z <=? 9007199254740991)%Z = true)
| OtherNumber (printed : string).

(** [Number::toString], the conversion a template literal applies to a
    number. *)
Definition Number_toString (x : Number) : string :=
  match x with
  | SafeInteger z _ =>
      if (z <? 0)%Z then "-" ++ digits (Z.to_N (- z)) else digits (Z.to_N z)
  | OtherNumber printed => printed
  end.

(** The text a template literal gives for a member that is a number or
    is missing ([undefined]). *)
Definition template_text (x : option Number) : string :=
  match x with
  | Some n => Number_toString n
  | None => "undefined"
  end.

#[local] Set Warnings "-register-all".

(** A JSON value, as [response.json()] produces it. *)
Inductive json : Type :=
| JNull
| JBool (b : bool)
| JNumber (n : Z)
| JString (s : string)
| JArray (items : list json)
| JObject (fields : list (string * json)).

End Js.

(** ** The data of the page *)

Record GitHubUser := {
  login : string;
  name : option string;
  avatar_url : string;
  bio : option string;
  public_repos : Z
}.

Record GitHubRepo := {
  repo_id : Z;
  repo_name : string;
  repo_full_name : string;
  repo_description : option string;
  stargazers_count : Z;
  forks_count : Z;
  repo_updated_at : string;
  html_url : string
}.

Record GitHubNotification := {
  id : string;
  repository_full_name : string;
  subject_title : string;
  subject_url : option string;
  reason : string;
  updated_at : string
}.

(** The value held by the [error] cell when it is not null. *)
Record ErrorState := {
  message : string;
  details : option Js.json
}.

(** What [useUser] returns. *)
Record ExternalAccount := { provider : string }.
Record User := { externalAccounts : list ExternalAccount }.
Record Identity := { isLoaded : bool; user : option User }.

(** The six [useState] cells. *)
Record PageState := {
  githubUser : option GitHubUser;
  repos : list GitHubRepo;
  notifications : list GitHubNotification;
  loading : bool;
  isSyncing : bool;
  error : option ErrorState
}.

Definition initialState : PageState :=
  {| githubUser := None; repos := []; notifications := [];
     loading := true; isSyncing := false; error := None |}.

(** [user?.externalAccounts?.some(account => account.provider === "github")]:
    [None] is [undefined], the value when there is no user. *)
Definition isConnected (i : Identity) : option bool :=
  option_map
    (fun u => existsb (fun account => String.eqb (provider account) "github")
                      (externalAccounts u))
    (user i).

(** ** Awaited calls and what they give back *)

(** A body of a non-ok response: [{ error, details }]. *)
Record ErrorData := { ed_error : string; ed_details : option Js.json }.

(** A thrown value: an [Error] with its message and cause, or anything
    else. *)
Inductive Thrown :=
| ThrownError (msg : string) (cause : option ErrorData)
| ThrownOther.

Definition Exc (A : Type) : Type := (Thrown + A)%type.

Definition ret {A} (a : A) : Exc A := inr a.
Definition throw {A} (t : Thrown) : Exc A := inl t.
Definition bind {A B} (m : Exc A) (k : A -> Exc B) : Exc B :=
  match m with inl t => inl t | inr a => k a end.

Notation "'do' x <- m ; k" := (bind m (fun x => k))
  (at level 10, x name, m at level 100, k at level 200).

(** A response: its [ok] flag and what [response.json()] gives, which is
    the payload of the endpoint when the response is ok and an error body
    when it is not. *)
Inductive Response (A : Type) :=
| RespOk (body : Exc A)
| RespNotOk (body : Exc ErrorData).
Arguments RespOk {A} body.
Arguments RespNotOk {A} body.

Definition ok {A} (r : Response A) : bool :=
  match r with RespOk _ => true | RespNotOk _ => false end.

Record DataPayload := {
  data_user : GitHubUser;
  data_repos : list GitHubRepo;
  data_notifications : list GitHubNotification
}.

(** The body of an ok answer of the sync endpoint: [{ chunks }], where
    [None] is a body with no such member. *)
Record SyncResult := { chunks : option Js.Number }.

Inductive Endpoint := DataEndpoint | SyncEndpoint | DisconnectEndpoint.

Definition endpoint_url (e : Endpoint) : string :=
  match e with
  | DataEndpoint => "/api/github/data"
  | SyncEndpoint => "/api/github/sync"
  | DisconnectEndpoint => "/api/github/disconnect"
  end.

Definition endpoint_method (e : Endpoint) : string :=
  match e with DataEndpoint => "GET" | _ => "POST" end.

Definition Endpoint_eqb (a b : Endpoint) : bool :=
  match a, b with
  | DataEndpoint, DataEndpoint
  | SyncEndpoint, SyncEndpoint
  | DisconnectEndpoint, DisconnectEndpoint => true
  | _, _ => false
  end.

(** ** Commands *)

Inductive ToastKind := ToastSuccessKind | ToastErrorKind.
Record Toast := { kind : ToastKind; title : string; description : string }.

Inductive Cmd :=
| SetGithubUser (v : option GitHubUser)
| SetRepos (v : list GitHubRepo)
| SetNotifications (v : list GitHubNotification)
| SetLoading (v : bool)
| SetIsSyncing (v : bool)
| SetError (v : option ErrorState)
| ShowToast (t : Toast)
| Fetch (e : Endpoint)
| SetLocationHref (href : string).

(** ** The handlers *)

(** The [if (!response.ok)] of the three [try] blocks: read the body and
    throw an [Error] made of it. *)
Definition throw_not_ok {A} (body : Exc ErrorData) : Exc A :=
  do errorData <- body;
  throw (ThrownError (ed_error errorData) (Some errorData)).

(** The [try] block of [fetchGitHubData] and of [handleSync] up to the
    second [await]: the call, the check of [response.ok], then
    [response.json()]. *)
Definition try_json {A} (r : Exc (Response A)) : Exc A :=
  do response <- r;
  match response with
  | RespNotOk body => throw_not_ok body
  | RespOk body => body
  end.

(** The [try] block of [handleDisconnect], which does not read the body
    of an ok response. *)
Definition try_ok {A} (r : Exc (Response A)) : Exc unit :=
  do response <- r;
  match response with
  | RespNotOk body => throw_not_ok body
  | RespOk _ => ret tt
  end.

(** [(err.cause as { details?: unknown })?.details] *)
Definition cause_details (cause : option ErrorData) : option Js.json :=
  match cause with Some c => ed_details c | None => None end.

(** The [catch] block of [fetchGitHubData] and of [handleDisconnect]. *)
Definition catch_setError (err : Thrown) : list Cmd :=
  match err with
  | ThrownError msg cause =>
      [SetError (Some {| message := msg; details := cause_details cause |})]
  | ThrownOther =>
      [SetError (Some {| message := "An unknown error occurred";
                         details := None |})]
  end.

(** [fetchGitHubData], up to its [await fetch]. *)
Definition fetchGitHubData_begin (userLoaded : bool) (connected : option bool)
  : list Cmd :=
  if negb userLoaded || negb (Js.truthy connected)
  then [SetLoading false]
  else [Fetch DataEndpoint].

(** [fetchGitHubData], from the settlement of the call on. *)
Definition fetchGitHubData_resume (r : Exc (Response DataPayload)) : list Cmd :=
  match try_json r with
  | inr data =>
      [SetGithubUser (Some (data_user data));
       SetRepos (data_repos data);
       SetNotifications (data_notifications data)]
  | inl err => catch_setError err
  end
  ++ [SetLoading false].

Definition handleDisconnect_begin : list Cmd := [Fetch DisconnectEndpoint].

Definition handleDisconnect_resume (r : Exc (Response unit)) : list Cmd :=
  match try_ok r with
  | inr _ => [SetLocationHref "/integrations"]
  | inl err => catch_setError err
  end.

Definition sync_success_toast (result : SyncResult) : Toast :=
  {| kind := ToastSuccessKind;
     title := "GitHub Data Synced";
     description := "Successfully stored " ++ Js.template_text (chunks result)
                    ++ " chunks in the database." |}.

Definition sync_failed_toast (text : string) : Toast :=
  {| kind := ToastErrorKind; title := "Sync Failed"; description := text |}.

Definition handleSync_begin : list Cmd := [SetIsSyncing true; Fetch SyncEndpoint].

Definition handleSync_resume (r : Exc (Response SyncResult)) : list Cmd :=
  match try_json r with
  | inr result => [ShowToast (sync_success_toast result)]
  | inl (ThrownError msg cause) =>
      [SetError (Some {| message := msg; details := cause_details cause |});
       ShowToast (sync_failed_toast msg)]
  | inl ThrownOther =>
      [ShowToast (sync_failed_toast "An unknown error occurred")]
  end
  ++ [SetIsSyncing false].

(** ** The render selector *)

Record ProfileCard := {
  card_src : string;
  card_alt : string;
  card_heading : string;
  card_bio : option string;
  card_repositories : Z
}.

Record NotificationRow := {
  row_key : string;
  row_title : string;
  row_repository : string;
  row_reason : string;
  row_updated_at : string;
  row_link : option string
}.

(** What the dashboard shows: the two buttons, of which only the sync
    button has a varying attribute, the profile card, and the
    notifications with the notice shown when there are none. *)
Record Dashboard := {
  sync_disabled : bool;
  sync_label : string;
  profile : option ProfileCard;
  no_notifications : bool;
  rows : list NotificationRow
}.

Inductive View :=
| LoadingView
| NotConnectedView
| ErrorView (text : string) (dump : Js.json)
| ConnectedView (d : Dashboard).

(** The card of lines 260-286. *)
Definition renderProfile (u : GitHubUser) : ProfileCard :=
  {| card_src := avatar_url u;
     card_alt := login u;
     card_heading := Js.nullish (name u) (login u);
     card_bio := match bio u with
                 | Some b => if Js.truthy_string b then Some b else None
                 | None => None
                 end;
     card_repositories := public_repos u |}.

(** The [href] of the View link of a notification, when the link is
    rendered (lines 315-327). *)
Definition linkTarget (n : GitHubNotification) : option string :=
  match subject_url n with
  | Some url =>
      if Js.truthy_string url
      then Some (Js.replace url "api.github.com/repos" "github.com")
      else None
  | None => None
  end.

Definition renderNotification (n : GitHubNotification) : NotificationRow :=
  {| row_key := id n;
     row_title := subject_title n;
     row_repository := repository_full_name n;
     row_reason := reason n;
     row_updated_at := updated_at n;
     row_link := linkTarget n |}.

Definition renderDashboard (st : PageState) : Dashboard :=
  {| sync_disabled := isSyncing st;
     sync_label := if isSyncing st then "Syncing..." else "Sync Data";
     profile := option_map renderProfile (githubUser st);
     no_notifications := Nat.eqb (List.length (notifications st)) 0;
     rows := map renderNotification (notifications st) |}.

(** [error.details ?? {}] *)
Definition details_or_empty (d : option Js.json) : Js.json :=
  match d with
  | None | Some Js.JNull => Js.JObject []
  | Some v => v
  end.

(** What the component returns, after its hooks: four returns, tried in
    this order (lines 163-334). *)
Definition GitHubIntegrationPage (i : Identity) (st : PageState) : View :=
  if negb (isLoaded i) || loading st then LoadingView
  else if negb (Js.truthy (isConnected i)) then NotConnectedView
  else match error st with
       | Some e => ErrorView (message e) (details_or_empty (details e))
       | None => ConnectedView (renderDashboard st)
       end.

(** The address of the Connect GitHub link of the connect prompt (line
    187) and of the Reconnect GitHub link of the error panel (line 208). *)
Definition signInHref : string := "/sign-in?redirect=/integrations/github".

(** The link of the view that leads off the page, when it has one.  The
    View links of the notifications open in another tab. *)
Definition viewLink (v : View) : option string :=
  match v with
  | NotConnectedView | ErrorView _ _ => Some signInHref
  | LoadingView | ConnectedView _ => None
  end.

(** The sync button as the view shows it: [None] when it is not on
    screen, else its [disabled] attribute. *)
Definition syncControl (v : View) : option bool :=
  match v with
  | ConnectedView d => Some (sync_disabled d)
  | _ => None
  end.

Inductive ViewKind := Loading | NotConnected | Error | Connected.

Definition kind_of (v : View) : ViewKind :=
  match v with
  | LoadingView => Loading
  | NotConnectedView => NotConnected
  | ErrorView _ _ => Error
  | ConnectedView _ => Connected
  end.

Definition ViewKind_eqb (a b : ViewKind) : bool :=
  match a, b with
  | Loading, Loading | NotConnected, NotConnected
  | Error, Error | Connected, Connected => true
  | _, _ => false
  end.

(** The view [k] is the one on screen. *)
Definition active (k : ViewKind) (i : Identity) (st : PageState) : bool :=
  ViewKind_eqb (kind_of (GitHubIntegrationPage i st)) k.

(** ** The page in its environment *)

Record World := {
  identity : Identity;        (* what [useUser] returned at the last render *)
  page : PageState;
  effectPending : bool;       (* the effect is due: mount, or a changed dependency *)
  pending : list Endpoint;    (* calls awaited and not yet settled *)
  sent : list Endpoint;       (* every call issued so far, latest first *)
  toasts : list Toast         (* every toast shown so far, latest first *)
}.

(** The browser shows the page, or has left it for another document. *)
Inductive Browser :=
| OnPage (w : World)
| Navigated (href : string).

Definition set_page (w : World) (st : PageState) : World :=
  {| identity := identity w; page := st; effectPending := effectPending w;
     pending := pending w; sent := sent w; toasts := toasts w |}.

(** One command on the world. *)
Definition exec1 (c : Cmd) (w : World) : Browser :=
  let st := page w in
  match c with
  | SetGithubUser v =>
      OnPage (set_page w {| githubUser := v; repos := repos st;
                            notifications := notifications st;
                            loading := loading st; isSyncing := isSyncing st;
                            error := error st |})
  | SetRepos v =>
      OnPage (set_page w {| githubUser := githubUser st; repos := v;
                            notifications := notifications st;
                            loading := loading st; isSyncing := isSyncing st;
                            error := error st |})
  | SetNotifications v =>
      OnPage (set_page w {| githubUser := githubUser st; repos := repos st;
                            notifications := v;
                            loading := loading st; isSyncing := isSyncing st;
                            error := error st |})
  | SetLoading v =>
      OnPage (set_page w {| githubUser := githubUser st; repos := repos st;
                            notifications := notifications st;
                            loading := v; isSyncing := isSyncing st;
                            error := error st |})
  | SetIsSyncing v =>
      OnPage (set_page w {| githubUser := githubUser st; repos := repos st;
                            notifications := notifications st;
                            loading := loading st; isSyncing := v;
                            error := error st |})
  | SetError v =>
      OnPage (set_page w {| githubUser := githubUser st; repos := repos st;
                            notifications := notifications st;
                            loading := loading st; isSyncing := isSyncing st;
                            error := v |})
  | ShowToast t =>
      OnPage {| identity := identity w; page := st;
                effectPending := effectPending w; pending := pending w;
                sent := sent w; toasts := t :: toasts w |}
  | Fetch e =>
      OnPage {| identity := identity w; page := st;
                effectPending := effectPending w; pending := e :: pending w;
                sent := e :: sent w; toasts := toasts w |}
  | SetLocationHref href => Navigated href
  end.

(** The commands of one synchronous stretch of code, in order.  Nothing
    runs on this page any more once the browser has left it. *)
Fixpoint exec (cs : list Cmd) (w : World) : Browser :=
  match cs with
  | [] => OnPage w
  | c :: cs' =>
      match exec1 c w with
      | OnPage w' => exec cs' w'
      | Navigated href => Navigated href
      end
  end.

(** ** The life of the page, event by event *)

Inductive Event :=
| UseUser (i : Identity)      (* the identity provider gives a new value *)
| RunEffect                   (* React runs the effect of line 56 *)
| DataSettled (r : Exc (Response DataPayload))
| ClickSync
| SyncSettled (r : Exc (Response SyncResult))
| ClickDisconnect
| DisconnectSettled (r : Exc (Response unit))
| ClickLink.                  (* the Connect or Reconnect link is followed *)

(** The dependency array [[userLoaded, isConnected]] of the effect. *)
Definition deps_eqb (a b : Identity) : bool :=
  Bool.eqb (isLoaded a) (isLoaded b)
  && match isConnected a, isConnected b with
     | None, None => true
     | Some x, Some y => Bool.eqb x y
     | _, _ => false
     end.

Fixpoint settle (e : Endpoint) (l : list Endpoint) : option (list Endpoint) :=
  match l with
  | [] => None
  | x :: l' =>
      if Endpoint_eqb x e then Some l'
      else option_map (cons x) (settle e l')
  end.

Definition with_pending (w : World) (l : list Endpoint) : World :=
  {| identity := identity w; page := page w; effectPending := effectPending w;
     pending := l; sent := sent w; toasts := toasts w |}.

(** The component as first rendered: every cell at its initial value, the
    effect due. *)
Definition mount (i : Identity) : World :=
  {| identity := i; page := initialState; effectPending := true;
     pending := []; sent := []; toasts := [] |}.

Definition view (w : World) : View := GitHubIntegrationPage (identity w) (page w).

(** One event.  [None]: the event cannot happen in this state (a button
    or a link that is not on screen, a button that is disabled, a
    settlement with no call awaited, an effect that is not due). *)
Definition step (w : World) (ev : Event) : option Browser :=
  match ev with
  | UseUser i =>
      Some (OnPage
        {| identity := i; page := page w;
           effectPending := effectPending w || negb (deps_eqb (identity w) i);
           pending := pending w; sent := sent w; toasts := toasts w |})
  | RunEffect =>
      if effectPending w
      then Some (exec (fetchGitHubData_begin (isLoaded (identity w))
                                             (isConnected (identity w)))
                      {| identity := identity w; page := page w;
                         effectPending := false; pending := pending w;
                         sent := sent w; toasts := toasts w |})
      else None
  | DataSettled r =>
      match settle DataEndpoint (pending w) with
      | Some l => Some (exec (fetchGitHubData_resume r) (with_pending w l))
      | None => None
      end
  | ClickSync =>
      match view w with
      | ConnectedView d =>
          if sync_disabled d then None else Some (exec handleSync_begin w)
      | _ => None
      end
  | SyncSettled r =>
      match settle SyncEndpoint (pending w) with
      | Some l => Some (exec (handleSync_resume r) (with_pending w l))
      | None => None
      end
  | ClickDisconnect =>
      match view w with
      | ConnectedView _ => Some (exec handleDisconnect_begin w)
      | _ => None
      end
  | DisconnectSettled r =>
      match settle DisconnectEndpoint (pending w) with
      | Some l => Some (exec (handleDisconnect_resume r) (with_pending w l))
      | None => None
      end
  | ClickLink =>
      match viewLink (view w) with
      | Some href => Some (Navigated href)
      | None => None
      end
  end.

(** A sequence of events.  No event of this page happens after the
    browser has left it. *)
Fixpoint run (b : Browser) (evs : list Event) : option Browser :=
  match evs with
  | [] => Some b
  | ev :: evs' =>
      match b with
      | OnPage w =>
          match step w ev with
          | Some b' => run b' evs'
          | None => None
          end
      | Navigated _ => None
      end
  end.

(** The states of the page that some run from some mount reaches. *)
Definition reachable (w : World) : Prop :=
  exists i evs, run (OnPage (mount i)) evs = Some (OnPage w).

(** The number of calls to [e] awaited. *)
Definition inFlight (e : Endpoint) (w : World) : nat :=
  List.length (filter (Endpoint_eqb e) (pending w)).

(** The number of calls to [e] issued since the mount. *)
Definition issued (e : Endpoint) (w : World) : nat :=
  List.length (filter (Endpoint_eqb e) (sent w)).

(** ** Vocabulary of the properties *)

(** The part of a URL after its scheme: what follows the first [://],
    the whole string when there is none. *)
Definition afterScheme (url : string) : string :=
  match Js.indexOf url "://" with
  | Some p => Js.drop (p + 3) url
  | None => url
  end.

(** The URL has [p] as the beginning of its host and path. *)
Definition hasHostPathPrefix (url p : string) : bool :=
  Js.startsWith (afterScheme url) p.

(** No linked external account has provider "github". *)
Definition noGitHubAccount (i : Identity) : Prop :=
  forall u account,
    user i = Some u -> In account (externalAccounts u) ->
    provider account <> "github".

(** The awaited call fails with an [Error] of message [msg] and cause
    [cause]: the response is not ok and its body is [{ error: msg, ... }],
    or the call or the reading of a body throws that [Error].
    [body_read] tells whether the handler reads the body of an ok
    response. *)
Inductive failsWith {A : Type} (body_read : bool)
  : Exc (Response A) -> string -> option ErrorData -> Prop :=
| fails_not_ok (errorData : ErrorData) :
    failsWith body_read (inr (RespNotOk (inr errorData)))
              (ed_error errorData) (Some errorData)
| fails_rejected (msg : string) (cause : option ErrorData) :
    failsWith body_read (inl (ThrownError msg cause)) msg cause
| fails_not_ok_body (msg : string) (cause : option ErrorData) :
    failsWith body_read (inr (RespNotOk (inl (ThrownError msg cause)))) msg cause
| fails_ok_body (msg : string) (cause : option ErrorData) :
    body_read = true ->
    failsWith body_read (inr (RespOk (inl (ThrownError msg cause)))) msg cause.

(** Reading a decimal numeral back: the value of a digit, of a run of
    digits, and of an integer written with an optional minus sign. *)
Definition digitValue (c : ascii) : option Z :=
  if Ascii.eqb c "0" then Some 0%Z
  else if Ascii.eqb c "1" then Some 1%Z
  else if Ascii.eqb c "2" then Some 2%Z
  else if Ascii.eqb c "3" then Some 3%Z
  else if Ascii.eqb c "4" then Some 4%Z
  else if Ascii.eqb c "5" then Some 5%Z
  else if Ascii.eqb c "6" then Some 6%Z
  else if Ascii.eqb c "7" then Some 7%Z
  else if Ascii.eqb c "8" then Some 8%Z
  else if Ascii.eqb c "9" then Some 9%Z
  else None.

Fixpoint readDigits (acc : Z) (s : string) : option Z :=
  match s with
  | EmptyString => Some acc
  | String c s' =>
      match digitValue c with
      | Some d => readDigits (10 * acc + d) s'
      | None => None
      end
  end.

Definition readNatural (s : string) : option Z :=
  match s with
  | EmptyString => None
  | String _ _ => readDigits 0 s
  end.

Definition readInteger (s : string) : option Z :=
  match s with
  | EmptyString => None
  | String c s' =>
      if Ascii.eqb c "-" then option_map Z.opp (readNatural s')
      else readNatural s
  end.

(** The text [s] is the one that stands for the number [x]: the numeral
    that reads back as the integer, for a safe integer; the text of the
    number, for any other. *)
Definition printsAs (x : Js.Number) (s : string) : Prop :=
  match x with
  | Js.SafeInteger z _ => readInteger s = Some z
  | Js.OtherNumber printed => s = printed
  end.

(** The number of calls [setIsSyncing(v)] in a stretch of code. *)
Definition countSetIsSyncing (v : bool) (cs : list Cmd) : nat :=
  List.length
    (filter (fun c => match c with
                      | SetIsSyncing x => Bool.eqb x v
                      | _ => false
                      end) cs).

(** The command is [setError(null)]. *)
Definition clearsError (c : Cmd) : bool :=
  match c with SetError None => true | _ => false end.

(** Every stretch of code of the component. *)
Inductive stretch : list Cmd -> Prop :=
| stretch_effect (l : bool) (c : option bool) : stretch (fetchGitHubData_begin l c)
| stretch_data (r : Exc (Response DataPayload)) : stretch (fetchGitHubData_resume r)
| stretch_sync : stretch handleSync_begin
| stretch_synced (r : Exc (Response SyncResult)) : stretch (handleSync_resume r)
| stretch_disconnect : stretch handleDisconnect_begin
| stretch_disconnected (r : Exc (Response unit)) : stretch (handleDisconnect_resume r).

(** What holds of every state of the page: the busy flag is set exactly
    while one sync call is awaited, and [loading] has been cleared once
    the effect has run for an identity that is not both loaded and
    connected. *)
Definition busyFlagExact (w : World) : Prop :=
  inFlight SyncEndpoint w = if isSyncing (page w) then 1 else 0.

Definition loadingCleared (w : World) : Prop :=
  effectPending w = false ->
  isLoaded (identity w) && Js.truthy (isConnected (identity w)) = false ->
  loading (page w) = false.

Definition invariant (w : World) : Prop := busyFlagExact w /\ loadingCleared w.

(** ** Sample values *)

Definition identityPending : Identity := {| isLoaded := false; user := None |}.

Definition identityGitHub : Identity :=
  {| isLoaded := true;
     user := Some {| externalAccounts := [ {| provider := "github" |} ] |} |}.

Definition identityGoogle : Identity :=
  {| isLoaded := true;
     user := Some {| externalAccounts := [ {| provider := "google" |} ] |} |}.

Definition octocat : GitHubUser :=
  {| login := "octocat"; name := None; avatar_url := "https://example.com/a.png";
     bio := None; public_repos := 8 |}.

Definition issue3 : GitHubNotification :=
  {| id := "1"; repository_full_name := "acme/widget";
     subject_title := "Crash on start";
     subject_url := Some "https://api.github.com/repos/acme/widget/issues/3";
     reason := "mention"; updated_at := "2024-01-01T00:00:00Z" |}.

Definition samplePayload : DataPayload :=
  {| data_user := octocat; data_repos := []; data_notifications := [issue3] |}.

Definition fortyTwo : Js.Number := Js.SafeInteger 42 eq_refl.

Definition rateLimited : ErrorData :=
  {| ed_error := "Rate limited"; ed_details := None |}.

(** The page with its data shown, and the same with a sync or a
    disconnect under way, with the events that lead there from the
    mount. *)
Definition shownState : PageState :=
  {| githubUser := Some octocat; repos := []; notifications := [issue3];
     loading := false; isSyncing := false; error := None |}.

Definition shownWorld : World :=
  {| identity := identityGitHub; page := shownState; effectPending := false;
     pending := []; sent := [DataEndpoint]; toasts := [] |}.

Definition syncingWorld : World :=
  {| identity := identityGitHub;
     page := {| githubUser := Some octocat; repos := [];
                notifications := [issue3];
                loading := false; isSyncing := true; error := None |};
     effectPending := false;
     pending := [SyncEndpoint]; sent := [SyncEndpoint; DataEndpoint];
     toasts := [] |}.

Definition disconnectingWorld : World :=
  {| identity := identityGitHub; page := shownState; effectPending := false;
     pending := [DisconnectEndpoint];
     sent := [DisconnectEndpoint; DataEndpoint]; toasts := [] |}.

(** The page after its data call was answered 429, and the page of a
    user with no GitHub account once the effect has run. *)
Definition failedWorld : World :=
  {| identity := identityGitHub;
     page := {| githubUser := None; repos := []; notifications := [];
                loading := false; isSyncing := false;
                error := Some {| message := "Rate limited"; details := None |} |};
     effectPending := false;
     pending := []; sent := [DataEndpoint]; toasts := [] |}.

Definition promptWorld : World :=
  {| identity := identityGoogle;
     page := {| githubUser := None; repos := []; notifications := [];
                loading := false; isSyncing := false; error := None |};
     effectPending := false; pending := []; sent := []; toasts := [] |}.

(** The identity resolves after the mount, to a user with GitHub linked. *)
Definition lateIdentityEvents : list Event :=
  [RunEffect; UseUser identityGitHub; RunEffect].

(** After a failure: the account is unlinked, linked again, and the data
    call of the second link succeeds. *)
Definition relinkEvents : list Event :=
  [UseUser identityGoogle; RunEffect; UseUser identityGitHub; RunEffect;
   DataSettled (inr (RespOk (inr samplePayload)))].

Definition shownEvents : list Event :=
  [RunEffect; DataSettled (inr (RespOk (inr samplePayload)))].

(** ** Vocabulary of the further properties *)

(** The number of times, along the events [evs], that the identity
    provider gives a value that differs from the one before it (first [i])
    in a dependency of the effect. *)
Fixpoint depChanges (i : Identity) (evs : list Event) : nat :=
  match evs with
  | [] => 0
  | UseUser i' :: evs' => (if deps_eqb i i' then 0 else 1) + depChanges i' evs'
  | _ :: evs' => depChanges i evs'
  end.

(** The three cells that [fetchGitHubData] fills. *)
Definition dataCells (st : PageState)
  : option GitHubUser * list GitHubRepo * list GitHubNotification :=
  (githubUser st, repos st, notifications st).

Definition payloadCells (data : DataPayload)
  : option GitHubUser * list GitHubRepo * list GitHubNotification :=
  (Some (data_user data), data_repos data, data_notifications data).

Definition b2n (b : bool) : nat := if b then 1 else 0.

(** Every sync call issued is awaited or has shown its toast. *)
Definition toastsAccounted (w : World) : Prop :=
  List.length (toasts w) + inFlight SyncEndpoint w = issued SyncEndpoint w.

(** The error cell is set and [loading] is cleared. *)
Definition errorHeld (w : World) : Prop :=
  error (page w) <> None /\ loading (page w) = false.

(** The body of a 429 answer with details. *)
Definition rateLimitedRetry : ErrorData :=
  {| ed_error := "Rate limited";
     ed_details := Some (Js.JObject [("retryAfter", Js.JNumber 30)]) |}.

(** The page of a connected user while its data call is awaited. *)
Definition loadingWorld : World :=
  {| identity := identityGitHub; page := initialState; effectPending := false;
     pending := [DataEndpoint]; sent := [DataEndpoint]; toasts := [] |}.

(** * Properties *)

(** ** Strings *)

Section StringFacts.

Lemma startsWith_app (pat rest : string) : Js.startsWith (pat ++ rest) pat = true.
Proof.
  induction pat as [|c pat IH]; simpl; [reflexivity|].
  now rewrite Ascii.eqb_refl, IH.
Qed.

Lemma take_app (pre rest : string) : Js.take (String.length pre) (pre ++ rest) = pre.
Proof.
  induction pre as [|c pre IH]; simpl; [reflexivity | now rewrite IH].
Qed.

Lemma drop_app (pre rest : string) : Js.drop (String.length pre) (pre ++ rest) = rest.
Proof.
  induction pre as [|c pre IH]; simpl; [reflexivity | exact IH].
Qed.

Lemma drop_add (n m : nat) (s : string) : Js.drop (n + m) s = Js.drop m (Js.drop n s).
Proof.
  revert s; induction n as [|n IH]; intros s; simpl; [reflexivity|].
  destruct s as [|c s]; [now destruct m | apply IH].
Qed.

Lemma append_assoc (a b c : string) : (a ++ b) ++ c = a ++ b ++ c.
Proof.
  induction a as [|x a IH]; simpl; [reflexivity | now rewrite IH].
Qed.

Lemma indexOf_here (s pat : string) :
  Js.startsWith s pat = true -> Js.indexOf s pat = Some 0.
Proof.
  intros H. destruct s; cbn [Js.indexOf]; now rewrite H.
Qed.

(** [indexOf] finds an occurrence that no occurrence precedes. *)
Lemma indexOf_first (pre pat rest : string) :
  (forall i, i < String.length pre -> ~ Js.occurs_at i (pre ++ pat ++ rest) pat) ->
  Js.indexOf (pre ++ pat ++ rest) pat = Some (String.length pre).
Proof.
  induction pre as [|c pre IH]; intros Hfirst.
  - simpl. apply indexOf_here, startsWith_app.
  - assert (H0 : Js.startsWith (String c pre ++ pat ++ rest) pat = false).
    { specialize (Hfirst 0 (Nat.lt_0_succ _)). unfold Js.occurs_at in Hfirst.
      simpl Js.drop in Hfirst. now destruct (Js.startsWith _ pat). }
    change (String c pre ++ pat ++ rest) with (String c (pre ++ pat ++ rest)) in *.
    cbn [Js.indexOf]. rewrite H0, IH; [reflexivity|].
    intros i Hi. apply (Hfirst (S i)). simpl. lia.
Qed.

(** [indexOf] answers -1 exactly when the pattern occurs nowhere. *)
Lemma indexOf_none (s pat : string) :
  (forall i, ~ Js.occurs_at i s pat) -> Js.indexOf s pat = None.
Proof.
  induction s as [|c s IH]; intros Hnone.
  - specialize (Hnone 0). unfold Js.occurs_at in Hnone. simpl in *.
    now destruct (Js.startsWith "" pat).
  - assert (H0 := Hnone 0). unfold Js.occurs_at in H0. simpl Js.drop in H0.
    cbn [Js.indexOf]. destruct (Js.startsWith (String c s) pat); [now elim H0|].
    rewrite IH; [reflexivity|]. intros i. apply (Hnone (S i)).
Qed.

(** The replacement of the first occurrence, wherever it is. *)
Lemma replace_first (pre pat rep rest : string) :
  (forall i, i < String.length pre -> ~ Js.occurs_at i (pre ++ pat ++ rest) pat) ->
  Js.replace (pre ++ pat ++ rest) pat rep = pre ++ rep ++ rest.
Proof.
  intros Hfirst. unfold Js.replace. rewrite (indexOf_first _ _ _ Hfirst).
  rewrite take_app, drop_add, drop_app, drop_app. reflexivity.
Qed.

Lemma replace_absent (s pat rep : string) :
  (forall i, ~ Js.occurs_at i s pat) -> Js.replace s pat rep = s.
Proof.
  intros Hnone. unfold Js.replace. now rewrite (indexOf_none _ _ Hnone).
Qed.

End StringFacts.

(** ** The link of a notification *)

Lemma linkTarget_rendered (n : GitHubNotification) (url : string) :
  subject_url n = Some url -> url <> "" ->
  linkTarget n = Some (Js.replace url "api.github.com/repos" "github.com").
Proof.
  intros Hurl Hne. unfold linkTarget. rewrite Hurl.
  destruct url; [now elim Hne | reflexivity].
Qed.

Lemma no_occurrence_in_scheme (scheme tail : string) (i : nat) :
  scheme = "https://" \/ scheme = "http://" ->
  i < String.length scheme ->
  ~ Js.occurs_at i (scheme ++ tail) "api.github.com/repos".
Proof.
  unfold Js.occurs_at.
  intros [-> | ->] Hi; simpl in Hi;
    do 8 (destruct i as [|i];
          [first [ lia | intros H; vm_compute in H; discriminate H ] |]);
    lia.
Qed.

(** C3, as the specification has it, fails: a subject URL whose host is
    another one, and which only holds [api.github.com/repos] further on, is
    rewritten as well. *)
Lemma link_rewrite_beyond_prefix :
  let url := "https://example.com/api.github.com/repos/x" in
  let n := {| id := "2"; repository_full_name := "acme/widget";
              subject_title := "t"; subject_url := Some url;
              reason := "mention"; updated_at := "2024-01-01T00:00:00Z" |} in
  hasHostPathPrefix url "api.github.com/repos" = false
  /\ linkTarget n = Some "https://example.com/github.com/x"
  /\ linkTarget n <> Some url.
Proof.
  cbv zeta. split; [reflexivity|]. split; [reflexivity|].
  vm_compute. discriminate.
Qed.

(** C3, amended: for every notification whose link is rendered (a subject
    URL that is neither null nor empty), the link target is the subject
    URL with the first occurrence of [api.github.com/repos], wherever it
    stands, replaced by [github.com].  So a URL that begins with
    [https://api.github.com/repos] or [http://api.github.com/repos] has
    that prefix rewritten, a URL in which the text occurs nowhere is linked
    as it is, and [https://api.github.com/repos/acme/widget/issues/3] is
    linked as [https://github.com/acme/widget/issues/3]. *)
Theorem link_target_rewrite (n : GitHubNotification) (url : string) :
  subject_url n = Some url -> url <> "" ->
  (forall pre rest,
      url = pre ++ "api.github.com/repos" ++ rest ->
      (forall i, i < String.length pre -> ~ Js.occurs_at i url "api.github.com/repos") ->
      linkTarget n = Some (pre ++ "github.com" ++ rest))
  /\ (forall rest, url = "https://api.github.com/repos" ++ rest ->
                   linkTarget n = Some ("https://github.com" ++ rest))
  /\ (forall rest, url = "http://api.github.com/repos" ++ rest ->
                   linkTarget n = Some ("http://github.com" ++ rest))
  /\ ((forall i, ~ Js.occurs_at i url "api.github.com/repos") ->
      linkTarget n = Some url)
  /\ (url = "https://api.github.com/repos/acme/widget/issues/3" ->
      linkTarget n = Some "https://github.com/acme/widget/issues/3").
Proof.
  intros Hurl Hne. rewrite (linkTarget_rendered n url Hurl Hne).
  assert (Hfirst : forall pre rest,
             url = pre ++ "api.github.com/repos" ++ rest ->
             (forall i, i < String.length pre ->
                        ~ Js.occurs_at i url "api.github.com/repos") ->
             Some (Js.replace url "api.github.com/repos" "github.com")
             = Some (pre ++ "github.com" ++ rest)).
  { intros pre rest -> Hno. now rewrite replace_first. }
  split; [exact Hfirst|].
  split.
  { intros rest E. apply (Hfirst "https://" rest E).
    intros i Hi. rewrite E.
    apply (no_occurrence_in_scheme "https://" _ i); [now left | exact Hi]. }
  split.
  { intros rest E. apply (Hfirst "http://" rest E).
    intros i Hi. rewrite E.
    apply (no_occurrence_in_scheme "http://" _ i); [now right | exact Hi]. }
  split.
  { intros Hnone. now rewrite replace_absent. }
  intros ->. reflexivity.
Qed.

Lemma link_target_rewrite_witness :
  subject_url issue3 = Some "https://api.github.com/repos/acme/widget/issues/3"
  /\ linkTarget issue3 = Some "https://github.com/acme/widget/issues/3".
Proof.
  split; [reflexivity|].
  assert (Hne : "https://api.github.com/repos/acme/widget/issues/3" <> "")
    by discriminate.
  destruct (link_target_rewrite issue3 _ eq_refl Hne) as (_ & _ & _ & _ & H).
  exact (H eq_refl).
Defined.

(** ** The render selector *)

Lemma ViewKind_eqb_eq (a b : ViewKind) : ViewKind_eqb a b = true <-> a = b.
Proof. destruct a, b; cbn; split; intros H; (reflexivity || discriminate H). Qed.

(** C4: whatever the values of [userLoaded], [loading], [isConnected] and
    [error], exactly one of the four views is on screen: the loading view
    when the identity is not loaded or [loading] is set, otherwise the
    connect prompt when no GitHub account is linked, otherwise the error
    panel when [error] is not null, otherwise the dashboard. *)
Theorem exactly_one_view (i : Identity) (st : PageState) :
  (exists k, active k i st = true /\ forall k', active k' i st = true -> k' = k)
  /\ active Loading i st = negb (isLoaded i) || loading st
  /\ active NotConnected i st
     = isLoaded i && negb (loading st) && negb (Js.truthy (isConnected i))
  /\ active Error i st
     = isLoaded i && negb (loading st) && Js.truthy (isConnected i)
       && match error st with Some _ => true | None => false end
  /\ active Connected i st
     = isLoaded i && negb (loading st) && Js.truthy (isConnected i)
       && match error st with Some _ => false | None => true end.
Proof.
  split.
  { exists (kind_of (GitHubIntegrationPage i st)). unfold active. split.
    - now apply ViewKind_eqb_eq.
    - intros k' H. symmetry. now apply ViewKind_eqb_eq. }
  unfold active, GitHubIntegrationPage.
  destruct (isLoaded i), (loading st), (Js.truthy (isConnected i)),
    (error st) as [e|]; cbn; repeat split.
Qed.

(** C10: in the dashboard, when a profile is held, the heading of the
    profile card is the display name of the profile when that is not null,
    and its login otherwise. *)
Theorem profile_heading (i : Identity) (st : PageState) (u : GitHubUser)
    (d : Dashboard) :
  githubUser st = Some u ->
  GitHubIntegrationPage i st = ConnectedView d ->
  exists card,
    profile d = Some card
    /\ card_heading card
       = match name u with Some display => display | None => login u end.
Proof.
  intros Hu Hview. unfold GitHubIntegrationPage in Hview.
  destruct (negb (isLoaded i) || loading st); [discriminate|].
  destruct (negb (Js.truthy (isConnected i))); [discriminate|].
  destruct (error st); [discriminate|].
  injection Hview as <-. cbn. rewrite Hu. cbn.
  eexists; split; [reflexivity|]. cbn. now destruct (name u).
Qed.

Lemma profile_heading_witness :
  exists card,
    profile (renderDashboard shownState) = Some card
    /\ card_heading card = "octocat".
Proof.
  exact (profile_heading identityGitHub shownState octocat
           (renderDashboard shownState) eq_refl eq_refl).
Defined.

(** ** Sync: the success notification *)

Lemma includes_middle (pre sub post : string) : Js.includes (pre ++ sub ++ post) sub.
Proof. now exists pre, post. Qed.

Lemma readDigits_acc (d : Decimal.uint) (p : positive) :
  readDigits (Z.pos p) (NilEmpty.string_of_uint d)
  = Some (Z.pos (Pos.of_uint_acc d p)).
Proof.
  revert p. induction d as [|d IH|d IH|d IH|d IH|d IH|d IH|d IH|d IH|d IH|d IH];
    intros p; [reflexivity| ..];
    cbn [NilEmpty.string_of_uint readDigits Pos.of_uint_acc];
    change (digitValue _) with (Some 0%Z) || change (digitValue _) with (Some 1%Z)
    || change (digitValue _) with (Some 2%Z) || change (digitValue _) with (Some 3%Z)
    || change (digitValue _) with (Some 4%Z) || change (digitValue _) with (Some 5%Z)
    || change (digitValue _) with (Some 6%Z) || change (digitValue _) with (Some 7%Z)
    || change (digitValue _) with (Some 8%Z) || change (digitValue _) with (Some 9%Z);
    cbv iota; rewrite <- IH; f_equal; lia.
Qed.

Lemma readDigits_uint (d : Decimal.uint) :
  readDigits 0 (NilEmpty.string_of_uint d) = Some (Z.of_N (N.of_uint d)).
Proof.
  induction d as [|d IH|d IH|d IH|d IH|d IH|d IH|d IH|d IH|d IH|d IH];
    [reflexivity | exact IH | ..];
    cbn [NilEmpty.string_of_uint readDigits N.of_uint Pos.of_uint];
    change (digitValue _) with (Some 1%Z) || change (digitValue _) with (Some 2%Z)
    || change (digitValue _) with (Some 3%Z) || change (digitValue _) with (Some 4%Z)
    || change (digitValue _) with (Some 5%Z) || change (digitValue _) with (Some 6%Z)
    || change (digitValue _) with (Some 7%Z) || change (digitValue _) with (Some 8%Z)
    || change (digitValue _) with (Some 9%Z);
    cbv iota; exact (readDigits_acc d _).
Qed.

Lemma digits_nonempty (n : N) : Js.digits n <> "".
Proof.
  unfold Js.digits. intros H.
  assert (Hnil : N.to_uint n = Decimal.Nil)
    by (destruct (N.to_uint n); (reflexivity || discriminate H)).
  pose proof (DecimalN.Unsigned.of_to n) as Hn. rewrite Hnil in Hn.
  cbn in Hn. subst n. discriminate Hnil.
Qed.

(** The digits of a natural number read back as that number. *)
Lemma readNatural_digits (n : N) : readNatural (Js.digits n) = Some (Z.of_N n).
Proof.
  pose proof (digits_nonempty n) as Hne. unfold readNatural.
  destruct (Js.digits n) eqn:Hd; [now elim Hne|]. rewrite <- Hd.
  unfold Js.digits. rewrite readDigits_uint. now rewrite DecimalN.Unsigned.of_to.
Qed.

Lemma readInteger_natural (s : string) (v : Z) :
  readNatural s = Some v -> readInteger s = Some v.
Proof.
  destruct s as [|c s]; [discriminate|]. intros H. unfold readInteger.
  destruct (Ascii.eqb c "-") eqn:Hc; [|exact H].
  apply Ascii.eqb_eq in Hc as ->. discriminate H.
Qed.

(** The text of a safe integer reads back as that integer; so the text
    of a number is the one that stands for it. *)
Lemma printsAs_toString (x : Js.Number) : printsAs x (Js.Number_toString x).
Proof.
  destruct x as [z safe|printed]; [|reflexivity]. cbn [printsAs Js.Number_toString].
  destruct (z <? 0)%Z eqn:Hz.
  - apply Z.ltb_lt in Hz. cbn [append readInteger]. cbn [Ascii.eqb Bool.eqb].
    rewrite readNatural_digits. cbn. f_equal. lia.
  - apply Z.ltb_ge in Hz. apply readInteger_natural.
    rewrite readNatural_digits. f_equal. lia.
Qed.

(** C8: when a sync call settles with an ok response whose body gives a
    count, a success toast is shown whose text is "Successfully stored ",
    the count, " chunks in the database.", so that the text contains the
    count: written as the decimal numeral that reads back as the count
    when the count is a safe integer, a negative one included, and as
    JavaScript prints the number otherwise.  For [{ chunks: 42 }] the
    text contains "42". *)
Theorem sync_success_toast_has_count (w : World) (result : SyncResult)
    (l : list Endpoint) (x : Js.Number) :
  settle SyncEndpoint (pending w) = Some l ->
  chunks result = Some x ->
  exists w' t s,
    step w (SyncSettled (inr (RespOk (inr result)))) = Some (OnPage w')
    /\ toasts w' = t :: toasts w
    /\ kind t = ToastSuccessKind
    /\ description t = "Successfully stored " ++ s ++ " chunks in the database."
    /\ printsAs x s
    /\ Js.includes (description t) s
    /\ (forall safe, x = Js.SafeInteger 42 safe -> s = "42").
Proof.
  intros Hsettle Hx. destruct result as [count]. cbn in Hx. subst count.
  cbn [step]. rewrite Hsettle. cbn.
  eexists _, _, (Js.Number_toString x). split; [reflexivity|]. cbn.
  split; [reflexivity|]. split; [reflexivity|]. split; [reflexivity|].
  split; [apply printsAs_toString|].
  split; [apply includes_middle|].
  intros safe ->. reflexivity.
Qed.

Lemma sync_success_toast_has_count_witness :
  exists w' t,
    step syncingWorld (SyncSettled (inr (RespOk (inr {| chunks := Some fortyTwo |}))))
    = Some (OnPage w')
    /\ toasts w' = t :: toasts syncingWorld
    /\ Js.includes (description t) "42".
Proof.
  destruct (sync_success_toast_has_count syncingWorld
              {| chunks := Some fortyTwo |} [] fortyTwo eq_refl eq_refl)
    as (w' & t & s & Hstep & Htoasts & _ & _ & _ & Hincl & H42).
  exists w', t. split; [exact Hstep|]. split; [exact Htoasts|].
  now rewrite <- (H42 eq_refl eq_refl).
Defined.

(** ** Calls awaited *)

Lemma Endpoint_eqb_eq (a b : Endpoint) : Endpoint_eqb a b = true <-> a = b.
Proof. destruct a, b; cbn; split; intros H; (reflexivity || discriminate H). Qed.

Lemma settle_count (e : Endpoint) (l l' : list Endpoint) :
  settle e l = Some l' ->
  forall e',
    List.length (filter (Endpoint_eqb e') l)
    = (if Endpoint_eqb e' e then 1 else 0)
      + List.length (filter (Endpoint_eqb e') l').
Proof.
  revert l'; induction l as [|x l IH]; intros l' H e'; [discriminate H|].
  cbn [settle] in H. destruct (Endpoint_eqb x e) eqn:Hx.
  - injection H as <-. apply Endpoint_eqb_eq in Hx as ->. cbn [filter].
    destruct (Endpoint_eqb e' e); reflexivity.
  - destruct (settle e l) as [l0|]; [|discriminate H].
    injection H as <-. cbn [filter].
    pose proof (IH l0 eq_refl e') as IH'.
    destruct (Endpoint_eqb e' x), (Endpoint_eqb e' e); cbn [List.length]; lia.
Qed.

Lemma settle_awaited (e : Endpoint) (l : list Endpoint) :
  0 < List.length (filter (Endpoint_eqb e) l) -> exists l', settle e l = Some l'.
Proof.
  induction l as [|x l IH]; cbn [filter settle]; [cbn; lia|].
  destruct (Endpoint_eqb x e) eqn:Hx; [eauto|].
  replace (Endpoint_eqb e x) with false
    by (destruct e, x; (reflexivity || discriminate Hx)).
  intros H. destruct (IH H) as [l' ->]. cbn. eauto.
Qed.

(** The ways an awaited call can settle. *)
Ltac outcomes r :=
  destruct r as [ [?msg ?cause | ]
                | [ [ [?msg ?cause | ] | ?body ]
                  | [ [?msg ?cause | ] | ?errorData ] ] ].

(** ** The invariant *)

Lemma deps_eqb_same (a b : Identity) :
  deps_eqb a b = true ->
  isLoaded a = isLoaded b
  /\ Js.truthy (isConnected a) = Js.truthy (isConnected b).
Proof.
  unfold deps_eqb. intros H. apply andb_true_iff in H as [Hl Hc].
  apply Bool.eqb_prop in Hl. split; [exact Hl|].
  destruct (isConnected a) as [[]|], (isConnected b) as [[]|];
    (reflexivity || discriminate Hc).
Qed.

Lemma view_connected (w : World) (d : Dashboard) :
  view w = ConnectedView d ->
  d = renderDashboard (page w)
  /\ isLoaded (identity w) = true
  /\ Js.truthy (isConnected (identity w)) = true
  /\ loading (page w) = false
  /\ error (page w) = None.
Proof.
  unfold view, GitHubIntegrationPage.
  destruct (isLoaded (identity w)), (loading (page w)),
    (Js.truthy (isConnected (identity w))), (error (page w));
    cbn; intros H; try discriminate H.
  injection H as <-. repeat split.
Qed.

Lemma mount_invariant (i : Identity) : invariant (mount i).
Proof. split; [reflexivity | intros H; discriminate H]. Qed.

Lemma step_invariant (w w' : World) (ev : Event) :
  invariant w -> step w ev = Some (OnPage w') -> invariant w'.
Proof.
  unfold invariant, busyFlagExact, loadingCleared, inFlight.
  intros [Hbusy Hload] Hstep. destruct ev; cbn [step] in Hstep.
  - (* UseUser *)
    injection Hstep as <-. cbn. split; [exact Hbusy|].
    intros Hp. apply orb_false_iff in Hp as [Hp Hd].
    apply negb_false_iff, deps_eqb_same in Hd as [<- <-]. now apply Hload.
  - (* RunEffect *)
    destruct (effectPending w); [|discriminate Hstep].
    unfold fetchGitHubData_begin in Hstep.
    destruct (isLoaded (identity w)) eqn:Hl,
      (Js.truthy (isConnected (identity w))) eqn:Hc;
      cbn in Hstep; injection Hstep as <-; cbn;
      (split; [exact Hbusy
              | intros _ H; rewrite ?Hl, ?Hc in H;
                (reflexivity || discriminate H)]).
  - (* DataSettled *)
    destruct (settle DataEndpoint (pending w)) as [l|] eqn:Hs; [|discriminate Hstep].
    pose proof (settle_count _ _ _ Hs SyncEndpoint) as Hc. cbn in Hc.
    outcomes r; cbn in Hstep; injection Hstep as <-; cbn;
      (split; [now rewrite <- Hc | reflexivity]).
  - (* ClickSync *)
    destruct (view w) as [| | |d] eqn:Hv; try discriminate Hstep.
    apply view_connected in Hv as (-> & _ & _ & _ & _). cbn in Hstep.
    destruct (isSyncing (page w)) eqn:Hsync; [discriminate Hstep|].
    injection Hstep as <-. cbn. split; [now rewrite Hbusy | exact Hload].
  - (* SyncSettled *)
    destruct (settle SyncEndpoint (pending w)) as [l|] eqn:Hs; [|discriminate Hstep].
    pose proof (settle_count _ _ _ Hs SyncEndpoint) as Hc. cbn in Hc.
    assert (Hl : List.length (filter (Endpoint_eqb SyncEndpoint) l) = 0)
      by (destruct (isSyncing (page w)); lia).
    outcomes r; cbn in Hstep; injection Hstep as <-; cbn;
      (split; [exact Hl | exact Hload]).
  - (* ClickDisconnect *)
    destruct (view w) as [| | |d] eqn:Hv; try discriminate Hstep.
    cbn in Hstep. injection Hstep as <-. cbn. split; [exact Hbusy | exact Hload].
  - (* DisconnectSettled *)
    destruct (settle DisconnectEndpoint (pending w)) as [l|] eqn:Hs;
      [|discriminate Hstep].
    pose proof (settle_count _ _ _ Hs SyncEndpoint) as Hc. cbn in Hc.
    outcomes r; cbn in Hstep; try discriminate Hstep; injection Hstep as <-; cbn;
      (split; [now rewrite <- Hc | exact Hload]).
  - (* ClickLink *)
    destruct (viewLink (view w)); discriminate Hstep.
Qed.

Lemma run_invariant (evs : list Event) (w w' : World) :
  invariant w -> run (OnPage w) evs = Some (OnPage w') -> invariant w'.
Proof.
  revert w; induction evs as [|ev evs IH]; intros w Hinv Hrun.
  - injection Hrun as <-. exact Hinv.
  - cbn [run] in Hrun. destruct (step w ev) as [[w1|href]|] eqn:Hstep.
    + exact (IH w1 (step_invariant _ _ _ Hinv Hstep) Hrun).
    + destruct evs; discriminate Hrun.
    + discriminate Hrun.
Qed.

Lemma reachable_invariant (w : World) : reachable w -> invariant w.
Proof.
  intros (i & evs & Hrun). exact (run_invariant evs _ _ (mount_invariant i) Hrun).
Qed.

Lemma shownWorld_reachable : reachable shownWorld.
Proof. exists identityGitHub, shownEvents. reflexivity. Defined.

Lemma syncingWorld_reachable : reachable syncingWorld.
Proof. exists identityGitHub, (shownEvents ++ [ClickSync])%list. reflexivity. Defined.

Lemma disconnectingWorld_reachable : reachable disconnectingWorld.
Proof.
  exists identityGitHub, (shownEvents ++ [ClickDisconnect])%list. reflexivity.
Defined.

(** ** Sync: the busy flag *)

(** Only the two stretches of [handleSync] write [isSyncing]. *)
Lemma step_keeps_isSyncing (w w' : World) (ev : Event) :
  (forall r, ev <> SyncSettled r) -> ev <> ClickSync ->
  step w ev = Some (OnPage w') ->
  isSyncing (page w') = isSyncing (page w).
Proof.
  intros Hnot_settled Hnot_click Hstep. destruct ev; cbn [step] in Hstep.
  - injection Hstep as <-. reflexivity.
  - destruct (effectPending w); [|discriminate Hstep].
    unfold fetchGitHubData_begin in Hstep.
    destruct (negb _ || negb _); cbn in Hstep; injection Hstep as <-; reflexivity.
  - destruct (settle DataEndpoint (pending w)); [|discriminate Hstep].
    outcomes r; cbn in Hstep; injection Hstep as <-; reflexivity.
  - now elim Hnot_click.
  - now elim (Hnot_settled r).
  - destruct (view w); try discriminate Hstep.
    cbn in Hstep. injection Hstep as <-. reflexivity.
  - destruct (settle DisconnectEndpoint (pending w)); [|discriminate Hstep].
    outcomes r; cbn in Hstep; try discriminate Hstep;
      injection Hstep as <-; reflexivity.
  - destruct (viewLink (view w)); discriminate Hstep.
Qed.

(** ** The error cell *)

Lemma stretch_never_clears (cs : list Cmd) :
  stretch cs -> forallb (fun c => negb (clearsError c)) cs = true.
Proof.
  intros [l c | r | | r | | r]; try reflexivity.
  - unfold fetchGitHubData_begin. now destruct (negb l || negb (Js.truthy c)).
  - outcomes r; reflexivity.
  - outcomes r; reflexivity.
  - outcomes r; reflexivity.
Qed.

Lemma exec_keeps_error (cs : list Cmd) :
  forallb (fun c => negb (clearsError c)) cs = true ->
  forall w w', exec cs w = OnPage w' ->
               error (page w) <> None -> error (page w') <> None.
Proof.
  induction cs as [|c cs IH]; intros Hcs w w' Hexec Herr.
  - injection Hexec as <-. exact Herr.
  - cbn [forallb] in Hcs. apply andb_true_iff in Hcs as [Hc Hcs].
    cbn [exec] in Hexec. destruct (exec1 c w) as [w1|href] eqn:H1;
      [|discriminate Hexec].
    apply (IH Hcs w1 w' Hexec).
    destruct c as [v|v|v|v|v|[e|]|t|e|href]; cbn in H1; try discriminate Hc;
      try discriminate H1; injection H1 as <-; cbn; (exact Herr || discriminate).
Qed.

Lemma Some_inj (A : Type) (x y : A) : Some x = Some y -> x = y.
Proof. intros H. now injection H. Qed.

Ltac stretch_of_step :=
  eexists _, _;
  split; [ | split; [ | reflexivity ]; reflexivity ];
  constructor.

(** Every step runs one stretch of the component on its cells. *)
Lemma step_runs_stretch (w : World) (ev : Event) (b : Browser) :
  step w ev = Some b ->
  (exists i, ev = UseUser i /\ exists w', b = OnPage w' /\ page w' = page w)
  \/ (exists cs w0, stretch cs /\ page w0 = page w /\ b = exec cs w0)
  \/ (exists href, b = Navigated href).
Proof.
  intros Hstep. destruct ev; unfold step in Hstep.
  - left. apply Some_inj in Hstep as <-. eauto.
  - right; left. destruct (effectPending w); [|discriminate Hstep].
    apply Some_inj in Hstep as <-. stretch_of_step.
  - right; left. destruct (settle DataEndpoint (pending w)); [|discriminate Hstep].
    apply Some_inj in Hstep as <-. stretch_of_step.
  - right; left. destruct (view w) as [| | |d]; try discriminate Hstep.
    destruct (sync_disabled d); [discriminate Hstep|].
    apply Some_inj in Hstep as <-. stretch_of_step.
  - right; left. destruct (settle SyncEndpoint (pending w)); [|discriminate Hstep].
    apply Some_inj in Hstep as <-. stretch_of_step.
  - right; left. destruct (view w); try discriminate Hstep.
    apply Some_inj in Hstep as <-. stretch_of_step.
  - right; left. destruct (settle DisconnectEndpoint (pending w)); [|discriminate Hstep].
    apply Some_inj in Hstep as <-. stretch_of_step.
  - right; right. destruct (viewLink (view w)); [|discriminate Hstep].
    apply Some_inj in Hstep as <-. eauto.
Qed.

Lemma step_keeps_error (w w' : World) (ev : Event) :
  step w ev = Some (OnPage w') ->
  error (page w) <> None -> error (page w') <> None.
Proof.
  intros Hstep Herr.
  destruct (step_runs_stretch _ _ _ Hstep)
    as [(i & _ & w1 & Hb & Hpage) | [(cs & w0 & Hcs & Hpage & Hb) | (href & Hb)]].
  - injection Hb as <-. now rewrite Hpage.
  - apply (exec_keeps_error cs (stretch_never_clears cs Hcs) w0 w');
      [now symmetry | now rewrite Hpage].
  - discriminate Hb.
Qed.

(** C9: no stretch of the component calls [setError(null)], so once the
    error cell holds a value it holds one after every event of the page,
    whatever the events are: effect, data call, sync, disconnect, change
    of identity.  The cell is one cell, so one error is held at a time,
    the latest. *)
Theorem error_never_cleared :
  (forall cs c, stretch cs -> In c cs -> clearsError c = false)
  /\ (forall w evs w',
        error (page w) <> None ->
        run (OnPage w) evs = Some (OnPage w') ->
        error (page w') <> None).
Proof.
  split.
  - intros cs c Hcs Hin. pose proof (stretch_never_clears cs Hcs) as Hall.
    rewrite forallb_forall in Hall. now apply negb_true_iff, Hall.
  - intros w evs; revert w. induction evs as [|ev evs IH]; intros w w' Herr Hrun.
    + injection Hrun as <-. exact Herr.
    + cbn [run] in Hrun. destruct (step w ev) as [[w1|href]|] eqn:Hstep.
      * exact (IH w1 w' (step_keeps_error _ _ _ Hstep Herr) Hrun).
      * destruct evs; discriminate Hrun.
      * discriminate Hrun.
Qed.

Lemma error_never_cleared_witness :
  exists w',
    run (OnPage failedWorld) relinkEvents = Some (OnPage w')
    /\ githubUser (page w') = Some octocat
    /\ error (page w') <> None.
Proof.
  eexists. split; [vm_compute; reflexivity|]. split; [reflexivity|].
  apply (proj2 error_never_cleared failedWorld relinkEvents);
    [discriminate | vm_compute; reflexivity].
Defined.

(** ** Disconnect *)

(** C6: when a disconnect call settles with an ok response, the browser
    leaves the page for [/integrations], and nothing of the page is left:
    no event of it happens any more.  When the response is not ok, or the
    call or the reading of the error body throws, the browser stays on the
    page and the error cell is set: to the message and details of the
    [Error], or to the unknown-error message for a thrown value that is
    not an [Error]. *)
Theorem disconnect_settlement (w : World) (l : list Endpoint) :
  settle DisconnectEndpoint (pending w) = Some l ->
  (forall response,
      ok response = true ->
      step w (DisconnectSettled (inr response)) = Some (Navigated "/integrations"))
  /\ (forall href ev evs, run (Navigated href) (ev :: evs) = None)
  /\ (forall r msg cause,
        failsWith false r msg cause ->
        exists w',
          step w (DisconnectSettled r) = Some (OnPage w')
          /\ error (page w')
             = Some {| message := msg; details := cause_details cause |})
  /\ (forall r,
        (forall response, r = inr response -> ok response = false) ->
        exists w' e,
          step w (DisconnectSettled r) = Some (OnPage w')
          /\ error (page w') = Some e
          /\ identity w' = identity w).
Proof.
  intros Hsettle.
  split.
  { intros [body|body] Hok; [|discriminate Hok]. cbn [step]. now rewrite Hsettle. }
  split; [reflexivity|].
  split.
  - intros r msg cause Hfails. cbn [step]. rewrite Hsettle.
    destruct Hfails as [errorData | msg cause | msg cause | msg cause Hread];
      [ | | | discriminate Hread]; cbn; eexists; split; reflexivity.
  - intros r Hnot_ok. cbn [step]. rewrite Hsettle.
    outcomes r;
      try (specialize (Hnot_ok _ eq_refl); discriminate Hnot_ok);
      cbn; eexists _, _; repeat split.
Qed.

Lemma disconnect_settlement_witness :
  step disconnectingWorld (DisconnectSettled (inr (RespOk (inr tt))))
  = Some (Navigated "/integrations")
  /\ exists w',
       step disconnectingWorld (DisconnectSettled (inr (RespNotOk (inr rateLimited))))
       = Some (OnPage w')
       /\ error (page w') = Some {| message := "Rate limited"; details := None |}.
Proof.
  destruct (disconnect_settlement disconnectingWorld [] eq_refl)
    as (Hok & _ & Hfail & _).
  split; [now apply Hok|].
  exact (Hfail _ _ _ (fails_not_ok false rateLimited)).
Defined.

(** ** The connect prompt *)

Lemma noGitHubAccount_isConnected (i : Identity) :
  noGitHubAccount i <-> Js.truthy (isConnected i) = false.
Proof.
  unfold noGitHubAccount, isConnected. destruct (user i) as [u|]; cbn.
  - destruct (existsb _ (externalAccounts u)) eqn:Hex; split; intros H;
      try reflexivity; try discriminate H.
    + apply existsb_exists in Hex as (account & Hin & Heq).
      apply String.eqb_eq in Heq. now elim (H u account eq_refl Hin).
    + intros u' account Hu Hin Hp. injection Hu as <-.
      assert (Htrue : existsb
                (fun account => String.eqb (provider account) "github")
                (externalAccounts u) = true).
      { apply existsb_exists. exists account. split; [exact Hin|].
        now apply String.eqb_eq. }
      rewrite Htrue in Hex. discriminate Hex.
  - split; [reflexivity | intros _ u account Hu; discriminate Hu].
Qed.

Lemma view_not_connected (i : Identity) (st : PageState) :
  isLoaded i = true -> Js.truthy (isConnected i) = false -> loading st = false ->
  GitHubIntegrationPage i st = NotConnectedView.
Proof. intros Hl Hc Hld. unfold GitHubIntegrationPage. now rewrite Hl, Hc, Hld. Qed.

(** C7: in every state the page can reach in which the identity is loaded
    and no linked account has provider "github", the page shows the
    connect prompt as soon as the effect has run, the effect itself
    issues no call, and no event of the page issues a GET to the data
    endpoint. *)
Theorem connect_prompt_without_github (w : World) :
  reachable w ->
  isLoaded (identity w) = true ->
  noGitHubAccount (identity w) ->
  (effectPending w = false -> view w = NotConnectedView)
  /\ (effectPending w = true ->
      exists w', step w RunEffect = Some (OnPage w')
                 /\ view w' = NotConnectedView
                 /\ sent w' = sent w)
  /\ (forall ev w',
        step w ev = Some (OnPage w') ->
        issued DataEndpoint w' = issued DataEndpoint w).
Proof.
  intros Hreach Hloaded Hnone.
  apply noGitHubAccount_isConnected in Hnone.
  destruct (reachable_invariant w Hreach) as [_ Hload].
  split.
  { intros Hp. apply view_not_connected; try assumption.
    apply Hload; [exact Hp | now rewrite Hloaded, Hnone]. }
  split.
  { intros Hp. cbn [step]. rewrite Hp. unfold fetchGitHubData_begin.
    rewrite Hloaded, Hnone. cbn. eexists; split; [reflexivity|].
    split; [|reflexivity].
    unfold view; cbn. now apply view_not_connected. }
  intros ev w' Hstep. unfold issued. destruct ev; cbn [step] in Hstep.
  - injection Hstep as <-. reflexivity.
  - destruct (effectPending w); [|discriminate Hstep].
    unfold fetchGitHubData_begin in Hstep. rewrite Hloaded, Hnone in Hstep.
    cbn in Hstep. injection Hstep as <-. reflexivity.
  - destruct (settle DataEndpoint (pending w)); [|discriminate Hstep].
    outcomes r; cbn in Hstep; injection Hstep as <-; reflexivity.
  - destruct (view w) as [| | |d] eqn:Hv; try discriminate Hstep.
    apply view_connected in Hv as (_ & _ & Hc & _). congruence.
  - destruct (settle SyncEndpoint (pending w)); [|discriminate Hstep].
    outcomes r; cbn in Hstep; injection Hstep as <-; reflexivity.
  - destruct (view w) as [| | |d] eqn:Hv; try discriminate Hstep.
    apply view_connected in Hv as (_ & _ & Hc & _). congruence.
  - destruct (settle DisconnectEndpoint (pending w)); [|discriminate Hstep].
    outcomes r; cbn in Hstep; try discriminate Hstep;
      injection Hstep as <-; reflexivity.
  - destruct (viewLink (view w)); discriminate Hstep.
Qed.

Lemma promptWorld_reachable : reachable promptWorld.
Proof. exists identityGoogle, [RunEffect]. reflexivity. Defined.

Lemma connect_prompt_without_github_witness :
  view promptWorld = NotConnectedView
  /\ forall ev w', step promptWorld ev = Some (OnPage w') -> issued DataEndpoint w' = 0.
Proof.
  assert (Hnone : noGitHubAccount (identity promptWorld)).
  { intros u account Hu Hin. cbn in Hu. injection Hu as <-.
    destruct Hin as [<- | []]. discriminate. }
  destruct (connect_prompt_without_github promptWorld promptWorld_reachable
              eq_refl Hnone) as (Hview & _ & Hsent).
  split; [exact (Hview eq_refl) | exact Hsent].
Defined.

(** ** Sync: failure *)

Lemma includes_self (s : string) : Js.includes s s.
Proof.
  exists "", "". cbn. induction s as [|c s IH]; cbn; [reflexivity|].
  now rewrite <- IH.
Qed.




(** ** The loading view *)

(** While the identity is not loaded the loading view is on screen. *)
Lemma loading_while_identity_pending (w : World) :
  isLoaded (identity w) = false -> view w = LoadingView.
Proof. intros H. unfold view, GitHubIntegrationPage. now rewrite H. Qed.

(** When the identity is loaded and connected at the mount, the loading
    view stays on screen while the data call is awaited, and goes when the
    call settles. *)
Lemma loading_until_settled_from_loaded_mount (i : Identity) :
  isLoaded i = true -> Js.truthy (isConnected i) = true ->
  view (mount i) = LoadingView
  /\ exists w,
       step (mount i) RunEffect = Some (OnPage w)
       /\ pending w = [DataEndpoint]
       /\ view w = LoadingView
       /\ forall r w', step w (DataSettled r) = Some (OnPage w') ->
                       pending w' = [] /\ kind_of (view w') <> Loading.
Proof.
  intros Hl Hc.
  assert (Hview : forall w : World,
             identity w = i -> loading (page w) = true -> view w = LoadingView).
  { intros w Hi Hld. unfold view, GitHubIntegrationPage. rewrite Hld. now rewrite orb_true_r. }
  split; [now apply Hview|].
  exists {| identity := i; page := initialState; effectPending := false;
            pending := [DataEndpoint]; sent := [DataEndpoint]; toasts := [] |}.
  split.
  { cbn. unfold fetchGitHubData_begin. now rewrite Hl, Hc. }
  split; [reflexivity|]. split; [now apply Hview|].
  intros r w' Hstep.
  assert (Hgone : identity w' = i /\ pending w' = [] /\ loading (page w') = false).
  { outcomes r; cbn in Hstep; injection Hstep as <-; repeat split. }
  destruct Hgone as (Hi & Hp & Hld). split; [exact Hp|].
  unfold view, GitHubIntegrationPage. rewrite Hi, Hld, Hl, Hc. cbn.
  destruct (error (page w')); discriminate.
Qed.

(** C1 fails on the code when the identity resolves after the mount: the
    effect of the mount runs with the identity not loaded and clears
    [loading]; the identity then resolves with GitHub linked, the effect
    runs again and issues the data call, and while that call is awaited
    the page shows the dashboard, empty, not the loading view. *)
Theorem loading_cleared_before_fetch_settles :
  exists w,
    run (OnPage (mount identityPending)) lateIdentityEvents = Some (OnPage w)
    /\ isLoaded (identity w) = true
    /\ Js.truthy (isConnected (identity w)) = true
    /\ pending w = [DataEndpoint]
    /\ loading (page w) = false
    /\ active Loading (identity w) (page w) = false
    /\ view w = ConnectedView {| sync_disabled := false;
                                 sync_label := "Sync Data";
                                 profile := None;
                                 no_notifications := true;
                                 rows := [] |}.
Proof.
  eexists. split; [vm_compute; reflexivity|]. repeat split.
Qed.

(** * Further properties of the page *)

Lemma run_preserves (P : World -> Prop) :
  (forall w ev w', P w -> step w ev = Some (OnPage w') -> P w') ->
  forall evs w w', P w -> run (OnPage w) evs = Some (OnPage w') -> P w'.
Proof.
  intros Hstep evs. induction evs as [|ev evs IH]; intros w w' HP Hrun.
  - injection Hrun as <-. exact HP.
  - cbn [run] in Hrun. destruct (step w ev) as [[w1|href]|] eqn:Hs.
    + exact (IH w1 w' (Hstep _ _ _ HP Hs) Hrun).
    + destruct evs; discriminate Hrun.
    + discriminate Hrun.
Qed.

(** The cases of one step, with the facts each case gives. *)
Ltac step_inv Hstep :=
  match type of Hstep with
  | step ?w ?ev = Some _ =>
      destruct ev as [i' | | r | | r | | r | ]; cbn [step] in Hstep;
      [ idtac
      | destruct (effectPending w) eqn:Hpend; [|discriminate Hstep];
        unfold fetchGitHubData_begin in Hstep;
        destruct (isLoaded (identity w)) eqn:Hloaded,
          (Js.truthy (isConnected (identity w))) eqn:Hconn;
        cbn in Hstep
      | destruct (settle DataEndpoint (pending w)) as [l|] eqn:Hsettle;
        [|discriminate Hstep];
        outcomes r; cbn in Hstep
      | destruct (view w) as [| | |d] eqn:Hview; try discriminate Hstep;
        pose proof (view_connected _ _ Hview) as (-> & Hloaded & Hconn & Hload & Herr);
        cbn in Hstep;
        destruct (isSyncing (page w)) eqn:Hsync; [discriminate Hstep|]
      | destruct (settle SyncEndpoint (pending w)) as [l|] eqn:Hsettle;
        [|discriminate Hstep];
        outcomes r; cbn in Hstep
      | destruct (view w) as [| | |d] eqn:Hview; try discriminate Hstep;
        pose proof (view_connected _ _ Hview) as (-> & Hloaded & Hconn & Hload & Herr);
        cbn in Hstep
      | destruct (settle DisconnectEndpoint (pending w)) as [l|] eqn:Hsettle;
        [|discriminate Hstep];
        outcomes r; cbn in Hstep
      | destruct (viewLink (view w)) as [href0|] eqn:Hlink; [|discriminate Hstep] ]
  end.

(** ** The loading cell *)

Lemma step_keeps_loading_cleared (w w' : World) (ev : Event) :
  loading (page w) = false -> step w ev = Some (OnPage w') ->
  loading (page w') = false.
Proof.
  intros Hld Hstep. step_inv Hstep; try discriminate Hstep;
    injection Hstep as <-; cbn; (exact Hld || reflexivity).
Qed.

(** X4: no stretch of the component calls [setLoading(true)]; so once
    [loading] is cleared it is cleared after every event that follows, a
    new data call included. *)
Theorem loading_never_set_again :
  (forall cs c, stretch cs -> In c cs -> c <> SetLoading true)
  /\ (forall w evs w',
        loading (page w) = false ->
        run (OnPage w) evs = Some (OnPage w') ->
        loading (page w') = false).
Proof.
  split.
  - intros cs c Hcs Hin ->. destruct Hcs as [l c | r | | r | | r].
    + unfold fetchGitHubData_begin in Hin.
      destruct (negb l || negb (Js.truthy c)); cbn in Hin;
        intuition discriminate.
    + outcomes r; cbn in Hin; intuition discriminate.
    + cbn in Hin; intuition discriminate.
    + outcomes r; cbn in Hin; intuition discriminate.
    + cbn in Hin; intuition discriminate.
    + outcomes r; cbn in Hin; intuition discriminate.
  - intros w evs w'.
    apply (run_preserves (fun w => loading (page w) = false)).
    intros w0 ev w1 H0 Hs. exact (step_keeps_loading_cleared _ _ _ H0 Hs).
Qed.

Lemma loading_never_set_again_witness :
  exists w',
    run (OnPage promptWorld) [UseUser identityGitHub; RunEffect] = Some (OnPage w')
    /\ pending w' = [DataEndpoint]
    /\ loading (page w') = false.
Proof.
  eexists. split; [vm_compute; reflexivity|]. split; [reflexivity|].
  apply (proj2 loading_never_set_again promptWorld
           [UseUser identityGitHub; RunEffect]);
    [reflexivity | vm_compute; reflexivity].
Defined.

(** ** The error panel *)

Lemma step_keeps_errorHeld (w w' : World) (ev : Event) :
  errorHeld w -> step w ev = Some (OnPage w') -> errorHeld w'.
Proof.
  intros [Herr Hld] Hstep. split.
  - exact (step_keeps_error _ _ _ Hstep Herr).
  - exact (step_keeps_loading_cleared _ _ _ Hld Hstep).
Qed.

Lemma errorHeld_view (w : World) :
  errorHeld w ->
  kind_of (view w) <> Connected
  /\ (isLoaded (identity w) = true ->
      Js.truthy (isConnected (identity w)) = true ->
      kind_of (view w) = Error).
Proof.
  intros [Herr Hld]. unfold view, GitHubIntegrationPage. rewrite Hld.
  destruct (isLoaded (identity w)), (Js.truthy (isConnected (identity w))),
    (error (page w)); cbn; try (now elim Herr);
    (split; [discriminate | intros H1 H2; (reflexivity || discriminate)]).
Qed.

(** X5: once the error panel is on screen the dashboard is never shown
    again, whatever happens: as long as the identity stays loaded and
    connected the page shows the error panel, and the two buttons of the
    dashboard cannot be clicked, so that no sync or disconnect is retried
    from there. *)
Theorem error_panel_is_final (w : World) (evs : list Event) (w' : World) :
  kind_of (view w) = Error ->
  run (OnPage w) evs = Some (OnPage w') ->
  kind_of (view w') <> Connected
  /\ (isLoaded (identity w') = true ->
      Js.truthy (isConnected (identity w')) = true ->
      kind_of (view w') = Error)
  /\ step w' ClickSync = None
  /\ step w' ClickDisconnect = None.
Proof.
  intros Hview Hrun.
  assert (Hheld : errorHeld w).
  { unfold view, GitHubIntegrationPage in Hview. unfold errorHeld.
    destruct (isLoaded (identity w)), (loading (page w)),
      (Js.truthy (isConnected (identity w))), (error (page w));
      cbn in Hview; try discriminate Hview. split; [discriminate | reflexivity]. }
  pose proof (run_preserves errorHeld
                (fun w0 ev w1 => step_keeps_errorHeld w0 w1 ev)
                evs w w' Hheld Hrun) as Hheld'.
  destruct (errorHeld_view w' Hheld') as [Hnot Hpanel].
  split; [exact Hnot|]. split; [exact Hpanel|].
  cbn [step]. destruct (view w'); (now split) || now elim Hnot.
Qed.

Lemma error_panel_is_final_witness :
  exists w',
    run (OnPage failedWorld) relinkEvents = Some (OnPage w')
    /\ kind_of (view w') = Error
    /\ step w' ClickSync = None.
Proof.
  eexists. split; [vm_compute; reflexivity|].
  assert (Hrun : run (OnPage failedWorld) relinkEvents
                 = Some (OnPage
                      {| identity := identityGitHub;
                         page := {| githubUser := Some octocat; repos := [];
                                    notifications := [issue3];
                                    loading := false; isSyncing := false;
                                    error := Some {| message := "Rate limited";
                                                     details := None |} |};
                         effectPending := false; pending := [];
                         sent := [DataEndpoint; DataEndpoint]; toasts := [] |}))
    by (vm_compute; reflexivity).
  destruct (error_panel_is_final failedWorld relinkEvents _ eq_refl Hrun)
    as (_ & Hpanel & Hsync & _).
  split; [exact (Hpanel eq_refl eq_refl) | exact Hsync].
Defined.

(** ** The data call *)

(** X1: when a data call settles with an ok response, the three data
    cells hold exactly the user, the repositories and the notifications of
    the body, in the order of the body, whatever they held before;
    [loading] is cleared; the error cell, the busy flag, the toasts and
    the calls issued are as they were.  If the identity is loaded and
    connected and no error is held, the dashboard is then on screen with
    the card of that user and one row per notification, and the notice of
    no notifications exactly when the body has none. *)
Theorem data_success_mirrors_payload (w : World) (l : list Endpoint)
    (data : DataPayload) :
  settle DataEndpoint (pending w) = Some l ->
  exists w',
    step w (DataSettled (inr (RespOk (inr data)))) = Some (OnPage w')
    /\ dataCells (page w') = payloadCells data
    /\ loading (page w') = false
    /\ error (page w') = error (page w)
    /\ isSyncing (page w') = isSyncing (page w)
    /\ toasts w' = toasts w
    /\ sent w' = sent w
    /\ pending w' = l
    /\ (isLoaded (identity w) = true ->
        Js.truthy (isConnected (identity w)) = true ->
        error (page w) = None ->
        exists d,
          view w' = ConnectedView d
          /\ profile d = Some (renderProfile (data_user data))
          /\ rows d = map renderNotification (data_notifications data)
          /\ (no_notifications d = true <-> data_notifications data = [])).
Proof.
  intros Hsettle. cbn [step]. rewrite Hsettle. cbn.
  eexists. split; [reflexivity|]. cbn. repeat (split; [reflexivity|]).
  intros Hl Hc He. unfold view, GitHubIntegrationPage. cbn. rewrite Hl, Hc, He. cbn.
  eexists. split; [reflexivity|]. cbn. repeat (split; [reflexivity|]).
  destruct (data_notifications data); cbn; split; (reflexivity || discriminate).
Qed.

Lemma data_success_mirrors_payload_witness :
  exists w',
    step loadingWorld (DataSettled (inr (RespOk (inr samplePayload))))
    = Some (OnPage w')
    /\ dataCells (page w') = (Some octocat, [], [issue3])
    /\ kind_of (view w') = Connected.
Proof.
  destruct (data_success_mirrors_payload loadingWorld [] samplePayload eq_refl)
    as (w' & Hstep & Hcells & _ & _ & _ & _ & _ & _ & Hview).
  exists w'. split; [exact Hstep|]. split; [exact Hcells|].
  destruct (Hview eq_refl eq_refl eq_refl) as (d & -> & _). reflexivity.
Defined.

(** X2: when a data call fails with an [Error], by a response that is
    not ok, whose body gives the message and the details, or by a throw,
    the error cell holds that message and those details, [loading] is
    cleared and the data cells are untouched; a thrown value that is not
    an [Error] gives the message "An unknown error occurred" and no
    details.  For a loaded and connected identity the error panel is then
    on screen with the message and the details, an empty object standing
    for details that are missing or null. *)
Theorem data_failure_shows_error_panel (w : World) (l : list Endpoint) :
  settle DataEndpoint (pending w) = Some l ->
  (forall r msg cause,
      failsWith true r msg cause ->
      exists w',
        step w (DataSettled r) = Some (OnPage w')
        /\ error (page w')
           = Some {| message := msg; details := cause_details cause |}
        /\ loading (page w') = false
        /\ dataCells (page w') = dataCells (page w)
        /\ (isLoaded (identity w) = true ->
            Js.truthy (isConnected (identity w)) = true ->
            view w' = ErrorView msg (details_or_empty (cause_details cause))))
  /\ (exists w',
        step w (DataSettled (inl ThrownOther)) = Some (OnPage w')
        /\ error (page w')
           = Some {| message := "An unknown error occurred"; details := None |}
        /\ loading (page w') = false)
  /\ details_or_empty None = Js.JObject []
  /\ details_or_empty (Some Js.JNull) = Js.JObject [].
Proof.
  intros Hsettle. split.
  - intros r msg cause Hfails. cbn [step]. rewrite Hsettle.
    destruct Hfails as [errorData | msg cause | msg cause | msg cause _];
      cbn; (eexists; split; [reflexivity|]); cbn;
      repeat (split; [reflexivity|]);
      intros Hl Hc; unfold view, GitHubIntegrationPage; cbn;
      rewrite Hl, Hc; reflexivity.
  - split; [|split; reflexivity].
    cbn [step]. rewrite Hsettle. cbn. eexists. repeat split.
Qed.

Lemma data_failure_shows_error_panel_witness :
  exists w',
    step loadingWorld (DataSettled (inr (RespNotOk (inr rateLimitedRetry))))
    = Some (OnPage w')
    /\ view w' = ErrorView "Rate limited"
                   (Js.JObject [("retryAfter", Js.JNumber 30)]).
Proof.
  destruct (data_failure_shows_error_panel loadingWorld [] eq_refl) as (Hfail & _).
  destruct (Hfail _ _ _ (fails_not_ok true rateLimitedRetry))
    as (w' & Hstep & _ & _ & _ & Hview).
  exists w'. split; [exact Hstep | exact (Hview eq_refl eq_refl)].
Defined.

(** ** Sync: a whole cycle *)

Lemma page_with_flag_cleared (st : PageState) :
  isSyncing st = false ->
  {| githubUser := githubUser st; repos := repos st;
     notifications := notifications st; loading := loading st;
     isSyncing := false; error := error st |} = st.
Proof. destruct st; cbn; now intros ->. Qed.

(** X3: a click on the sync button followed by the settlement of the
    call, when the call succeeds or throws a value that is not an [Error],
    leaves every cell of the page as it was before the click: the data
    shown is not refetched or changed, no error is set, the dashboard is
    on screen with its button enabled again.  One call, to the sync
    endpoint, has been issued and one toast shown: the success toast, or
    the failure toast with the text "An unknown error occurred". *)
Theorem sync_cycle_restores_page (w : World) (r : Exc (Response SyncResult)) :
  kind_of (view w) = Connected ->
  isSyncing (page w) = false ->
  (exists result, try_json r = inr result) \/ try_json r = inl ThrownOther ->
  exists w1 w2 t,
    step w ClickSync = Some (OnPage w1)
    /\ step w1 (SyncSettled r) = Some (OnPage w2)
    /\ page w2 = page w
    /\ view w2 = view w
    /\ sent w2 = SyncEndpoint :: sent w
    /\ pending w2 = pending w
    /\ toasts w2 = t :: toasts w
    /\ match try_json r with
       | inr result => t = sync_success_toast result
       | inl _ => t = sync_failed_toast "An unknown error occurred"
       end.
Proof.
  intros Hview Hsync Hr.
  destruct (view w) as [| | |d] eqn:Hv; try discriminate Hview.
  pose proof (view_connected _ _ Hv) as (-> & _).
  pose proof (page_with_flag_cleared (page w) Hsync) as Hpage.
  exists {| identity := identity w;
            page := {| githubUser := githubUser (page w); repos := repos (page w);
                       notifications := notifications (page w);
                       loading := loading (page w); isSyncing := true;
                       error := error (page w) |};
            effectPending := effectPending w;
            pending := SyncEndpoint :: pending w;
            sent := SyncEndpoint :: sent w; toasts := toasts w |}.
  assert (Hclick : forall b, exec handleSync_begin w = b -> step w ClickSync = Some b).
  { intros b <-. cbn [step]. rewrite Hv. cbn [sync_disabled renderDashboard].
    now rewrite Hsync. }
  outcomes r; cbn in Hr;
    try (destruct Hr as [[result Hr] | Hr]; discriminate Hr);
    (eexists _, _; split; [apply Hclick; reflexivity|]);
    (split; [reflexivity|]); cbn;
    (split; [exact Hpage|]);
    (split; [unfold view; cbn; rewrite Hpage; exact Hv|]);
    repeat split.
Qed.

Lemma sync_cycle_restores_page_witness :
  exists w1 w2,
    step shownWorld ClickSync = Some (OnPage w1)
    /\ step w1 (SyncSettled (inr (RespOk (inr {| chunks := Some fortyTwo |}))))
       = Some (OnPage w2)
    /\ page w2 = shownState
    /\ sent w2 = [SyncEndpoint; DataEndpoint].
Proof.
  assert (Hr : (exists result,
                   try_json (inr (RespOk (inr {| chunks := Some fortyTwo |}))) = inr result)
               \/ try_json (inr (RespOk (inr {| chunks := Some fortyTwo |}))) = inl ThrownOther)
    by (left; eexists; reflexivity).
  destruct (sync_cycle_restores_page shownWorld _ eq_refl eq_refl Hr)
    as (w1 & w2 & t & H1 & H2 & Hpage & _ & Hsent & _).
  exists w1, w2. repeat split; assumption.
Defined.

(** X6: in every state the page can reach, the sync calls issued are
    those still awaited plus one per toast shown: every settlement of a
    sync call shows exactly one toast, and nothing else on the page shows
    one. *)
Theorem one_toast_per_sync (w : World) :
  reachable w ->
  List.length (toasts w) + inFlight SyncEndpoint w = issued SyncEndpoint w.
Proof.
  intros (i & evs & Hrun).
  apply (run_preserves toastsAccounted) with (evs := evs) (w := mount i);
    [|reflexivity|exact Hrun].
  clear. intros w ev w' Hacc Hstep.
  unfold toastsAccounted, inFlight, issued in *.
  step_inv Hstep; try discriminate Hstep; injection Hstep as <-; cbn;
    try (pose proof (settle_count _ _ _ Hsettle SyncEndpoint) as Hc; cbn in Hc);
    lia.
Qed.

Lemma one_toast_per_sync_witness :
  List.length (toasts syncingWorld) + inFlight SyncEndpoint syncingWorld = 1.
Proof. exact (one_toast_per_sync syncingWorld syncingWorld_reachable). Defined.

(** ** Disconnect and navigation *)

Lemma viewLink_kind (v : View) (href : string) :
  viewLink v = Some href <->
  href = "/sign-in?redirect=/integrations/github"
  /\ (kind_of v = NotConnected \/ kind_of v = Error).
Proof.
  destruct v; cbn; split;
    try (intros H; discriminate H);
    try (intros [_ [H | H]]; discriminate H).
  - intros H. injection H as <-. split; [reflexivity | now left].
  - now intros [-> _].
  - intros H. injection H as <-. split; [reflexivity | now right].
  - now intros [-> _].
Qed.

(** X7: the page is left in two ways only.  It goes to [/integrations]
    when a disconnect call settles with an ok response, and to
    [/sign-in?redirect=/integrations/github] when the user follows the
    Connect GitHub link of the connect prompt or the Reconnect GitHub link
    of the error panel, the only views that have that link.  No other
    event and no failure leaves the page, and no other address is ever
    taken. *)
Theorem page_left_in_two_ways :
  (forall w ev href,
      step w ev = Some (Navigated href) ->
      (href = "/integrations"
       /\ exists response,
            ev = DisconnectSettled (inr response) /\ ok response = true)
      \/ (href = "/sign-in?redirect=/integrations/github"
          /\ ev = ClickLink
          /\ (kind_of (view w) = NotConnected \/ kind_of (view w) = Error)))
  /\ (forall w,
        kind_of (view w) = NotConnected \/ kind_of (view w) = Error ->
        step w ClickLink = Some (Navigated "/sign-in?redirect=/integrations/github"))
  /\ (forall i evs href,
        run (OnPage (mount i)) evs = Some (Navigated href) ->
        (href = "/integrations"
         /\ exists response, In (DisconnectSettled (inr response)) evs
                             /\ ok response = true)
        \/ (href = "/sign-in?redirect=/integrations/github"
            /\ In ClickLink evs)).
Proof.
  assert (Hstep1 : forall w ev href,
             step w ev = Some (Navigated href) ->
             (href = "/integrations"
              /\ exists response,
                   ev = DisconnectSettled (inr response) /\ ok response = true)
             \/ (href = "/sign-in?redirect=/integrations/github"
                 /\ ev = ClickLink
                 /\ (kind_of (view w) = NotConnected
                     \/ kind_of (view w) = Error))).
  { intros w ev href Hstep. step_inv Hstep; try discriminate Hstep;
      injection Hstep as <-;
      try (left; (split; [reflexivity|]); eexists; now split).
    right. apply viewLink_kind in Hlink as [-> Hkind]. now repeat split. }
  split; [exact Hstep1|]. split.
  { intros w Hkind. cbn [step].
    assert (Hlink : viewLink (view w)
                    = Some "/sign-in?redirect=/integrations/github")
      by (now apply viewLink_kind).
    now rewrite Hlink. }
  intros i evs. generalize (mount i). induction evs as [|ev evs IH];
    intros w href Hrun; [discriminate Hrun|].
  cbn [run] in Hrun. destruct (step w ev) as [[w1|href1]|] eqn:Hs.
  - destruct (IH w1 href Hrun) as [(-> & response & Hin & Hok) | (-> & Hin)].
    + left. split; [reflexivity|]. exists response. split; [now right | exact Hok].
    + right. split; [reflexivity | now right].
  - destruct evs; [|discriminate Hrun]. injection Hrun as <-.
    destruct (Hstep1 _ _ _ Hs) as [(-> & response & -> & Hok) | (-> & -> & _)].
    + left. split; [reflexivity|]. exists response. split; [now left | exact Hok].
    + right. split; [reflexivity | now left].
  - discriminate Hrun.
Qed.

Lemma page_left_in_two_ways_witness :
  step promptWorld ClickLink
  = Some (Navigated "/sign-in?redirect=/integrations/github")
  /\ step failedWorld ClickLink
     = Some (Navigated "/sign-in?redirect=/integrations/github").
Proof.
  destruct page_left_in_two_ways as (_ & Hlink & _).
  split; apply Hlink; [now left | now right].
Defined.

(** X8: the disconnect button has no busy flag.  While the dashboard is
    on screen every click on it is taken and issues one more call to the
    disconnect endpoint, with no change to any cell of the page: [n]
    clicks leave [n] more calls awaited. *)
Theorem disconnect_has_no_guard (w : World) (n : nat) :
  kind_of (view w) = Connected ->
  exists w',
    run (OnPage w) (repeat ClickDisconnect n) = Some (OnPage w')
    /\ page w' = page w
    /\ identity w' = identity w
    /\ inFlight DisconnectEndpoint w' = n + inFlight DisconnectEndpoint w
    /\ inFlight SyncEndpoint w' = inFlight SyncEndpoint w.
Proof.
  revert w. induction n as [|n IH]; intros w Hview.
  - exists w. repeat split.
  - destruct (view w) as [| | |d] eqn:Hv; try discriminate Hview.
    cbn [repeat run step]. rewrite Hv. cbn.
    set (w1 := {| identity := identity w; page := page w;
                  effectPending := effectPending w;
                  pending := DisconnectEndpoint :: pending w;
                  sent := DisconnectEndpoint :: sent w; toasts := toasts w |}).
    destruct (IH w1) as (w' & Hrun & Hpage & Hid & Hd & Hs).
    { unfold view. cbn. fold (view w). now rewrite Hv. }
    exists w'. split; [exact Hrun|]. split; [exact Hpage|]. split; [exact Hid|].
    unfold inFlight in *. cbn in Hd, Hs. split; [lia | exact Hs].
Qed.

Lemma disconnect_has_no_guard_witness :
  exists w',
    run (OnPage shownWorld) [ClickDisconnect; ClickDisconnect; ClickDisconnect]
    = Some (OnPage w')
    /\ inFlight DisconnectEndpoint w' = 3.
Proof.
  destruct (disconnect_has_no_guard shownWorld 3 eq_refl)
    as (w' & Hrun & _ & _ & Hd & _).
  exists w'. split; [exact Hrun | exact Hd].
Defined.

(** ** When the data endpoint is called *)

(** X9: the data endpoint is called by the effect only, one call for one
    run of the effect, and only when the identity is loaded and has a
    GitHub account linked.  No click, no settlement, a successful or a
    failed sync included, and no change of identity in itself calls it. *)
Theorem data_call_only_by_effect (w w' : World) (ev : Event) :
  step w ev = Some (OnPage w') ->
  issued DataEndpoint w' <> issued DataEndpoint w ->
  ev = RunEffect
  /\ isLoaded (identity w) = true
  /\ Js.truthy (isConnected (identity w)) = true
  /\ sent w' = DataEndpoint :: sent w.
Proof.
  intros Hstep Hmore. unfold issued in Hmore.
  step_inv Hstep; try discriminate Hstep; injection Hstep as <-;
    cbn in Hmore; try (now elim Hmore).
  cbn. auto.
Qed.

Lemma data_call_only_by_effect_witness :
  isLoaded (identity (mount identityGitHub)) = true
  /\ sent loadingWorld = [DataEndpoint].
Proof.
  assert (Hstep : step (mount identityGitHub) RunEffect = Some (OnPage loadingWorld))
    by reflexivity.
  assert (Hmore : issued DataEndpoint loadingWorld
                  <> issued DataEndpoint (mount identityGitHub))
    by (cbn; discriminate).
  destruct (data_call_only_by_effect _ _ _ Hstep Hmore) as (_ & Hl & _ & Hsent).
  split; [exact Hl | exact Hsent].
Defined.

Lemma data_calls_bounded_from (evs : list Event) (w w' : World) :
  run (OnPage w) evs = Some (OnPage w') ->
  issued DataEndpoint w' + b2n (effectPending w')
  <= issued DataEndpoint w + b2n (effectPending w) + depChanges (identity w) evs.
Proof.
  revert w. induction evs as [|ev evs IH]; intros w Hrun.
  - injection Hrun as <-. cbn. lia.
  - cbn [run] in Hrun. destruct (step w ev) as [[w1|href]|] eqn:Hstep;
      [ | destruct evs; discriminate Hrun | discriminate Hrun ].
    specialize (IH w1 Hrun).
    enough (issued DataEndpoint w1 + b2n (effectPending w1)
            + depChanges (identity w1) evs
            <= issued DataEndpoint w + b2n (effectPending w)
               + depChanges (identity w) (ev :: evs)) by lia.
    clear IH Hrun. unfold issued.
    step_inv Hstep; try discriminate Hstep; injection Hstep as <-; cbn;
      try rewrite Hpend; cbn; try lia.
    destruct (effectPending w), (deps_eqb (identity w) i'); cbn; lia.
Qed.

(** X10: the page does not refetch in a loop.  Along any run from the
    mount, the calls to the data endpoint number at most one for the mount
    plus one for each change of [userLoaded] or [isConnected] given by the
    identity provider; clicks, settlements, failures and identity values
    that leave both unchanged add none. *)
Theorem data_calls_bounded (i : Identity) (evs : list Event) (w : World) :
  run (OnPage (mount i)) evs = Some (OnPage w) ->
  issued DataEndpoint w <= 1 + depChanges i evs.
Proof.
  intros Hrun. pose proof (data_calls_bounded_from evs _ _ Hrun) as H.
  cbn in H. lia.
Qed.

Lemma data_calls_bounded_witness :
  issued DataEndpoint syncingWorld <= 1.
Proof.
  exact (data_calls_bounded identityGitHub (shownEvents ++ [ClickSync])%list
           syncingWorld eq_refl).
Defined.

(** ** Where the data shown comes from *)

Lemma step_dataCells (w w' : World) (ev : Event) :
  step w ev = Some (OnPage w') ->
  dataCells (page w') = dataCells (page w)
  \/ exists data, ev = DataSettled (inr (RespOk (inr data)))
                  /\ dataCells (page w') = payloadCells data.
Proof.
  intros Hstep. step_inv Hstep; try discriminate Hstep; injection Hstep as <-;
    try (left; reflexivity).
  right. eexists. split; reflexivity.
Qed.

Lemma run_dataCells (evs : list Event) (w w' : World) :
  run (OnPage w) evs = Some (OnPage w') ->
  dataCells (page w') = dataCells (page w)
  \/ exists data, In (DataSettled (inr (RespOk (inr data)))) evs
                  /\ dataCells (page w') = payloadCells data.
Proof.
  revert w. induction evs as [|ev evs IH]; intros w Hrun.
  - injection Hrun as <-. now left.
  - cbn [run] in Hrun. destruct (step w ev) as [[w1|href]|] eqn:Hstep;
      [ | destruct evs; discriminate Hrun | discriminate Hrun ].
    destruct (IH w1 Hrun) as [Hsame | (data & Hin & Hcells)].
    + destruct (step_dataCells _ _ _ Hstep) as [Hsame1 | (data & -> & Hcells)].
      * left. congruence.
      * right. exists data. split; [now left | congruence].
    + right. exists data. split; [now right | exact Hcells].
Qed.

(** X12: the profile, the repositories and the notifications the page
    holds are never made up or mixed: along any run from the mount they
    are all three empty, or all three those of the body of one ok response
    of the data endpoint received during the run. *)
Theorem data_cells_from_one_response (i : Identity) (evs : list Event)
    (w : World) :
  run (OnPage (mount i)) evs = Some (OnPage w) ->
  dataCells (page w) = (None, [], [])
  \/ exists data, In (DataSettled (inr (RespOk (inr data)))) evs
                  /\ dataCells (page w) = payloadCells data.
Proof. intros Hrun. exact (run_dataCells evs _ _ Hrun). Qed.

Lemma data_cells_from_one_response_witness :
  dataCells (page syncingWorld) = (None, [], [])
  \/ exists data,
       In (DataSettled (inr (RespOk (inr data)))) (shownEvents ++ [ClickSync])%list
       /\ dataCells (page syncingWorld) = payloadCells data.
Proof.
  exact (data_cells_from_one_response identityGitHub
           (shownEvents ++ [ClickSync])%list syncingWorld eq_refl).
Defined.

(** ** The link of a notification, in full *)

Lemma startsWith_split (s pat : string) :
  Js.startsWith s pat = true -> exists rest, s = pat ++ rest.
Proof.
  revert s. induction pat as [|p pat IH]; intros s H.
  - now exists s.
  - destruct s as [|c s]; [discriminate H|]. cbn in H.
    apply andb_true_iff in H as [Hc Hs]. apply Ascii.eqb_eq in Hc as ->.
    destruct (IH s Hs) as [rest ->]. now exists rest.
Qed.

Lemma drop_empty (i : nat) : Js.drop i "" = "".
Proof. now destruct i. Qed.

Lemma length_append (a b : string) :
  String.length (a ++ b) = String.length a + String.length b.
Proof. induction a as [|c a IH]; cbn; [reflexivity | now rewrite IH]. Qed.

Lemma indexOf_found (s pat : string) (n : nat) :
  Js.indexOf s pat = Some n ->
  exists pre rest,
    s = pre ++ pat ++ rest
    /\ String.length pre = n
    /\ forall i, i < n -> ~ Js.occurs_at i s pat.
Proof.
  revert n. induction s as [|c s IH]; intros n H; cbn [Js.indexOf] in H.
  - destruct (Js.startsWith "" pat) eqn:Hs; [|discriminate H].
    injection H as <-. destruct (startsWith_split _ _ Hs) as [rest ->].
    exists "", rest. split; [reflexivity|]. split; [reflexivity|]. intros i Hi; lia.
  - destruct (Js.startsWith (String c s) pat) eqn:Hs.
    + injection H as <-. destruct (startsWith_split _ _ Hs) as [rest Hrest].
      exists "", rest. split; [exact Hrest|]. split; [reflexivity|].
      intros i Hi; lia.
    + destruct (Js.indexOf s pat) as [m|] eqn:Hm; [|discriminate H].
      injection H as <-. destruct (IH m eq_refl) as (pre & rest & -> & <- & Hfirst).
      exists (String c pre), rest. split; [reflexivity|]. split; [reflexivity|].
      intros [|i] Hi; unfold Js.occurs_at; cbn [Js.drop].
      * change (String c pre ++ pat ++ rest) with (String c (pre ++ pat ++ rest)).
        now rewrite Hs.
      * apply Hfirst. cbn in Hi. lia.
Qed.

Lemma indexOf_absent (s pat : string) :
  Js.indexOf s pat = None -> forall i, ~ Js.occurs_at i s pat.
Proof.
  induction s as [|c s IH]; intros H i; cbn [Js.indexOf] in H; unfold Js.occurs_at.
  - destruct (Js.startsWith "" pat) eqn:Hs; [discriminate H|].
    now rewrite drop_empty, Hs.
  - destruct (Js.startsWith (String c s) pat) eqn:Hs; [discriminate H|].
    destruct (Js.indexOf s pat) eqn:Hm; [discriminate H|].
    destruct i as [|i]; cbn [Js.drop]; [now rewrite Hs | now apply IH].
Qed.

(** X11: the link of a notification is rendered exactly when the subject
    URL is neither null nor empty, and the target is then one of two
    things: the URL itself, when [api.github.com/repos] occurs nowhere in
    it, or the URL with its first occurrence of that text, and no other,
    replaced by [github.com], which makes it ten characters shorter.
    Whatever stands before and after that occurrence is kept as it is. *)
Theorem link_target_cases (n : GitHubNotification) :
  (linkTarget n = None <-> subject_url n = None \/ subject_url n = Some "")
  /\ (forall url,
        subject_url n = Some url -> url <> "" ->
        (linkTarget n = Some url
         /\ forall i, ~ Js.occurs_at i url "api.github.com/repos")
        \/ (exists pre rest,
              url = pre ++ "api.github.com/repos" ++ rest
              /\ (forall i, i < String.length pre ->
                            ~ Js.occurs_at i url "api.github.com/repos")
              /\ linkTarget n = Some (pre ++ "github.com" ++ rest)
              /\ String.length (pre ++ "github.com" ++ rest) + 10
                 = String.length url)).
Proof.
  split.
  - unfold linkTarget. destruct (subject_url n) as [[|c url]|]; cbn; split;
      intros H; try reflexivity; try discriminate H; auto;
      destruct H as [H | H]; discriminate H.
  - intros url Hurl Hne. unfold linkTarget. rewrite Hurl.
    destruct url as [|c url]; [now elim Hne|]. cbn [Js.truthy_string].
    unfold Js.replace.
    destruct (Js.indexOf (String c url) "api.github.com/repos") as [p|] eqn:Hp.
    + right. destruct (indexOf_found _ _ _ Hp) as (pre & rest & E & <- & Hfirst).
      exists pre, rest. split; [exact E|]. split; [exact Hfirst|].
      rewrite E. rewrite take_app, drop_add, drop_app, drop_app.
      split; [reflexivity|]. rewrite !length_append. cbn. lia.
    + left. split; [reflexivity|]. exact (indexOf_absent _ _ Hp).
Qed.

Lemma link_target_cases_witness :
  exists pre rest,
    "https://api.github.com/repos/acme/widget/issues/3"
    = pre ++ "api.github.com/repos" ++ rest
    /\ linkTarget issue3 = Some (pre ++ "github.com" ++ rest).
Proof.
  assert (Hne : "https://api.github.com/repos/acme/widget/issues/3" <> "")
    by discriminate.
  destruct (proj2 (link_target_cases issue3) _ eq_refl Hne)
    as [[_ Hnone] | (pre & rest & E & _ & Htarget & _)].
  - exfalso. apply (Hnone 8). reflexivity.
  - exists pre, rest. split; [exact E | exact Htarget].
Defined.

(** ** What the dashboard button says *)

(** X13: in every state the page can reach with the dashboard on screen,
    the sync button reads "Syncing..." and is disabled when a sync call is
    awaited, and reads "Sync Data" and is enabled when none is; there is
    no state in which the label, the attribute and the calls awaited
    disagree. *)
Theorem sync_button_tells_the_truth (w : World) (d : Dashboard) :
  reachable w ->
  view w = ConnectedView d ->
  (sync_label d = "Syncing..." /\ sync_disabled d = true
   /\ inFlight SyncEndpoint w = 1)
  \/ (sync_label d = "Sync Data" /\ sync_disabled d = false
      /\ inFlight SyncEndpoint w = 0).
Proof.
  intros Hreach Hview. destruct (reachable_invariant w Hreach) as [Hbusy _].
  unfold busyFlagExact in Hbusy.
  apply view_connected in Hview as (-> & _). cbn.
  destruct (isSyncing (page w)); [left | right]; now repeat split.
Qed.

Lemma sync_button_tells_the_truth_witness :
  inFlight SyncEndpoint syncingWorld = 1
  /\ sync_label (renderDashboard (page syncingWorld)) = "Syncing...".
Proof.
  destruct (sync_button_tells_the_truth syncingWorld _ syncingWorld_reachable
              eq_refl) as [(Hlabel & _ & Hone) | (Hlabel & _)].
  - split; [exact Hone | exact Hlabel].
  - discriminate Hlabel.
Defined.

(** ** The loading view does not hang *)

Lemma step_loading_owed (w w' : World) (ev : Event) :
  (loading (page w) = true ->
   effectPending w = true \/ 0 < inFlight DataEndpoint w) ->
  step w ev = Some (OnPage w') ->
  loading (page w') = true ->
  effectPending w' = true \/ 0 < inFlight DataEndpoint w'.
Proof.
  intros Howed Hstep. unfold inFlight in *.
  step_inv Hstep; try discriminate Hstep; injection Hstep as <-; cbn;
    try (pose proof (settle_count _ _ _ Hsettle DataEndpoint) as Hc; cbn in Hc);
    try rewrite Hpend in *;
    intros Hld; try discriminate Hld;
    try (right; lia);
    try (destruct (Howed Hld) as [H | H]; [ (left; exact H) || discriminate H
                                          | right; lia ]).
  destruct (Howed Hld) as [H | H]; [left; now rewrite H | now right].
Qed.

(** X14: whenever the [loading] cell is still set, in any state the page
    can reach, something that clears it is still to come: the effect is
    due, or a data call is awaited, and every settlement of a data call,
    good or bad, clears the cell.  The page is never left with [loading]
    set and nothing under way. *)
Theorem loading_is_always_owed (w : World) :
  reachable w ->
  (loading (page w) = true ->
   effectPending w = true \/ 0 < inFlight DataEndpoint w)
  /\ (forall r w', step w (DataSettled r) = Some (OnPage w') ->
                   loading (page w') = false).
Proof.
  intros (i & evs & Hrun). split.
  - apply (run_preserves
             (fun w => loading (page w) = true ->
                       effectPending w = true \/ 0 < inFlight DataEndpoint w))
      with (evs := evs) (w := mount i); [|now left|exact Hrun].
    intros w0 ev w1 H0 Hs. exact (step_loading_owed _ _ _ H0 Hs).
  - intros r w' Hstep. cbn [step] in Hstep.
    destruct (settle DataEndpoint (pending w)); [|discriminate Hstep].
    outcomes r; cbn in Hstep; injection Hstep as <-; reflexivity.
Qed.

Lemma loadingWorld_reachable : reachable loadingWorld.
Proof. exists identityGitHub, [RunEffect]. reflexivity. Defined.

Lemma loading_is_always_owed_witness :
  effectPending loadingWorld = true \/ 0 < inFlight DataEndpoint loadingWorld.
Proof.
  exact (proj1 (loading_is_always_owed loadingWorld loadingWorld_reachable)
           eq_refl).
Defined.

(** ** Sync: the busy flag and the button *)

Lemma no_control_with_error (w : World) :
  error (page w) <> None ->
  syncControl (view w) = None /\ step w ClickSync = None.
Proof.
  intros Herr. cbn [step]. unfold view, GitHubIntegrationPage.
  destruct (negb (isLoaded (identity w)) || loading (page w)); [now split|].
  destruct (negb (Js.truthy (isConnected (identity w)))); [now split|].
  destruct (error (page w)); [now split | now elim Herr].
Qed.

Lemma control_after_flag_cleared (w w' : World) :
  identity w' = identity w ->
  loading (page w') = loading (page w) ->
  error (page w') = error (page w) ->
  isSyncing (page w') = false ->
  syncControl (view w') = option_map (fun _ => false) (syncControl (view w))
  /\ (syncControl (view w) <> None -> exists b, step w' ClickSync = Some b).
Proof.
  intros Hi Hl He Hs. cbn [step]. unfold view, GitHubIntegrationPage.
  rewrite Hi, Hl, He.
  destruct (negb (isLoaded (identity w)) || loading (page w));
    [split; [reflexivity | intros H; now elim H]|].
  destruct (negb (Js.truthy (isConnected (identity w))));
    [split; [reflexivity | intros H; now elim H]|].
  destruct (error (page w)); [split; [reflexivity | intros H; now elim H]|].
  cbn. rewrite Hs. split; [reflexivity | eauto].
Qed.



